(** * RPL timer management (core/net/rplfuzzy/rpl-timers.c)

    A shallow embedding of the timer layer of the RPL implementation with the
    "fuzzy latency" extension: the periodic maintenance timer, the DIO trickle
    timer with its randomised interval split, the debounced DAO timer, and the
    predictor of the next DIO of the preferred parent.

    Every C function of the file is a function on [state]; the values the C
    code obtains from its environment while it runs (the clock, the random
    source, the address check, the lookup of a DAG) are arguments of the
    function that reads them, and the calls it makes to the rest of the stack
    are appended to a log. *)

From Stdlib Require Import ZArith Lia List Bool.
Import ListNotations.
Local Open Scope Z_scope.

(** ** Machine integers *)

(** [uint8_t], [uint16_t] and [uint32_t] values are integers reduced modulo
    the width of the type. *)
Definition wrap8 (z : Z) : Z := z mod 256.
Definition wrap16 (z : Z) : Z := z mod 65536.
Definition wrap32 (z : Z) : Z := z mod 4294967296.

(** [1UL << n], stored in a [uint32_t]. *)
Definition shift1UL (n : Z) : Z := wrap32 (Z.shiftl 1 n).

(** ** Pointers, callbacks and callback timers *)

(** A parent is named by the address of its [rpl_parent_t]; [None] is the
    null pointer. *)
Definition ptr := Z.

(** The functions of this file that are handed to [ctimer_set], with their
    argument when it is a parent.  The DAG timers always carry the DAG they
    belong to. *)
Inductive callback : Type :=
| cb_handle_periodic_timer
| cb_handle_dio_timer
| cb_handle_dao_timer
| cb_handle_next_dio (p : ptr)
| cb_send_dis (p : ptr).

(** Modelled from the spec: sys/ctimer.h and sys/etimer.h are not part of
    the sources.  The alarm service offers [set(duration, callback, arg)],
    [reset()] (the same duration again), [stop()] and the query whether the
    alarm is no longer waiting.  A timer that was never set is not waiting. *)
Record ctimer : Type := mk_ctimer {
  pending : bool;
  interval : Z;
  f : option callback
}.

Definition ctimer_idle : ctimer := mk_ctimer false 0 None.

Definition ctimer_set (t : Z) (cb : callback) : ctimer :=
  mk_ctimer true t (Some cb).

Definition ctimer_reset (c : ctimer) : ctimer :=
  mk_ctimer true (interval c) (f c).

Definition ctimer_stop (c : ctimer) : ctimer :=
  mk_ctimer false (interval c) (f c).

Definition etimer_expired (c : ctimer) : bool := negb (pending c).

(** The alarm service, when the waiting time is over, marks the timer as
    expired and then runs its callback. *)
Definition ctimer_expire (c : ctimer) : ctimer :=
  mk_ctimer false (interval c) (f c).

(** ** Calls to the rest of the stack *)

Inductive call : Type :=
| rpl_purge_routes
| rpl_recalculate_ranks
| dis_output (target : option ptr)
| dio_output (target : option ptr)
| dao_output (parent : ptr) (lifetime : Z)
| dio_output_set_next (time delay current_delay : Z)
| update_metric_container (latency : Z).

(** ** The DAG and the parent *)

(** Modelled from the spec: [rpl_dag_t] and [rpl_parent_t] are declared in
    rpl.h, which is not part of the sources.  The trickle exponents, the
    redundancy counter and threshold and the statistics are integers
    (section 3 of the specification); [dio_next_delay] is passed to
    [new_interval] as a [uint32_t *], and the prediction fields of a parent
    receive [uint32_t] values, so those hold 32-bit values. *)
Record rpl_dag : Type := mk_dag {
  dio_intdoubl : Z;
  dio_intmin : Z;
  dio_redundancy : Z;
  dio_intcurrent : Z;
  dio_send : Z;
  dio_counter : Z;
  dio_next_delay : Z;
  dio_totint : Z;
  dio_totsend : Z;
  dio_totrecv : Z;
  default_lifetime : Z;
  preferred_parent : option ptr;
  dio_timer : ctimer;
  dao_timer : ctimer
}.

Record rpl_parent : Type := mk_parent {
  first_dio_received : Z;
  next_dio_start_interval : Z;
  next_dio_time : Z;
  next_dio_delay : Z;
  latency_metric : Z;
  latency_timer : ctimer
}.

(** ** The state the file works on

    The file-scope variables of rpl-timers.c, the counter [rpl_stats.resets],
    the DAG and the parent the current call is about ([p->dag] is [dag]), and
    the log of calls made so far, oldest first. *)
Record state : Type := mk_state {
  periodic_timer : ctimer;
  next_dis : Z;
  dio_send_ok : Z;
  next_time : Z;
  next_delay : Z;
  dis_sended : Z;
  dis_timer : ctimer;
  rpl_stats_resets : Z;
  dag : rpl_dag;
  parent : rpl_parent;
  calls : list call
}.

(** *** Field updates *)

Definition set_dio_intcurrent (v : Z) (d : rpl_dag) : rpl_dag :=
  mk_dag (dio_intdoubl d) (dio_intmin d) (dio_redundancy d) v (dio_send d)
         (dio_counter d) (dio_next_delay d) (dio_totint d) (dio_totsend d)
         (dio_totrecv d) (default_lifetime d) (preferred_parent d)
         (dio_timer d) (dao_timer d).

Definition set_dio_send (v : Z) (d : rpl_dag) : rpl_dag :=
  mk_dag (dio_intdoubl d) (dio_intmin d) (dio_redundancy d) (dio_intcurrent d) v
         (dio_counter d) (dio_next_delay d) (dio_totint d) (dio_totsend d)
         (dio_totrecv d) (default_lifetime d) (preferred_parent d)
         (dio_timer d) (dao_timer d).

Definition set_dio_counter (v : Z) (d : rpl_dag) : rpl_dag :=
  mk_dag (dio_intdoubl d) (dio_intmin d) (dio_redundancy d) (dio_intcurrent d)
         (dio_send d) v (dio_next_delay d) (dio_totint d) (dio_totsend d)
         (dio_totrecv d) (default_lifetime d) (preferred_parent d)
         (dio_timer d) (dao_timer d).

Definition set_dio_next_delay (v : Z) (d : rpl_dag) : rpl_dag :=
  mk_dag (dio_intdoubl d) (dio_intmin d) (dio_redundancy d) (dio_intcurrent d)
         (dio_send d) (dio_counter d) v (dio_totint d) (dio_totsend d)
         (dio_totrecv d) (default_lifetime d) (preferred_parent d)
         (dio_timer d) (dao_timer d).

Definition set_dio_totint (v : Z) (d : rpl_dag) : rpl_dag :=
  mk_dag (dio_intdoubl d) (dio_intmin d) (dio_redundancy d) (dio_intcurrent d)
         (dio_send d) (dio_counter d) (dio_next_delay d) v (dio_totsend d)
         (dio_totrecv d) (default_lifetime d) (preferred_parent d)
         (dio_timer d) (dao_timer d).

Definition set_dio_totsend (v : Z) (d : rpl_dag) : rpl_dag :=
  mk_dag (dio_intdoubl d) (dio_intmin d) (dio_redundancy d) (dio_intcurrent d)
         (dio_send d) (dio_counter d) (dio_next_delay d) (dio_totint d) v
         (dio_totrecv d) (default_lifetime d) (preferred_parent d)
         (dio_timer d) (dao_timer d).

Definition set_dio_totrecv (v : Z) (d : rpl_dag) : rpl_dag :=
  mk_dag (dio_intdoubl d) (dio_intmin d) (dio_redundancy d) (dio_intcurrent d)
         (dio_send d) (dio_counter d) (dio_next_delay d) (dio_totint d)
         (dio_totsend d) v (default_lifetime d) (preferred_parent d)
         (dio_timer d) (dao_timer d).

Definition set_dio_timer (v : ctimer) (d : rpl_dag) : rpl_dag :=
  mk_dag (dio_intdoubl d) (dio_intmin d) (dio_redundancy d) (dio_intcurrent d)
         (dio_send d) (dio_counter d) (dio_next_delay d) (dio_totint d)
         (dio_totsend d) (dio_totrecv d) (default_lifetime d)
         (preferred_parent d) v (dao_timer d).

Definition set_dao_timer (v : ctimer) (d : rpl_dag) : rpl_dag :=
  mk_dag (dio_intdoubl d) (dio_intmin d) (dio_redundancy d) (dio_intcurrent d)
         (dio_send d) (dio_counter d) (dio_next_delay d) (dio_totint d)
         (dio_totsend d) (dio_totrecv d) (default_lifetime d)
         (preferred_parent d) (dio_timer d) v.

Definition set_first_dio_received (v : Z) (p : rpl_parent) : rpl_parent :=
  mk_parent v (next_dio_start_interval p) (next_dio_time p) (next_dio_delay p)
            (latency_metric p) (latency_timer p).

Definition set_next_dio_start_interval (v : Z) (p : rpl_parent) : rpl_parent :=
  mk_parent (first_dio_received p) v (next_dio_time p) (next_dio_delay p)
            (latency_metric p) (latency_timer p).

Definition set_next_dio_time (v : Z) (p : rpl_parent) : rpl_parent :=
  mk_parent (first_dio_received p) (next_dio_start_interval p) v
            (next_dio_delay p) (latency_metric p) (latency_timer p).

Definition set_next_dio_delay (v : Z) (p : rpl_parent) : rpl_parent :=
  mk_parent (first_dio_received p) (next_dio_start_interval p) (next_dio_time p)
            v (latency_metric p) (latency_timer p).

Definition set_latency_metric (v : Z) (p : rpl_parent) : rpl_parent :=
  mk_parent (first_dio_received p) (next_dio_start_interval p) (next_dio_time p)
            (next_dio_delay p) v (latency_timer p).

Definition set_latency_timer (v : ctimer) (p : rpl_parent) : rpl_parent :=
  mk_parent (first_dio_received p) (next_dio_start_interval p) (next_dio_time p)
            (next_dio_delay p) (latency_metric p) v.

Definition set_periodic_timer (v : ctimer) (s : state) : state :=
  mk_state v (next_dis s) (dio_send_ok s) (next_time s) (next_delay s)
           (dis_sended s) (dis_timer s) (rpl_stats_resets s) (dag s) (parent s)
           (calls s).

Definition set_next_dis (v : Z) (s : state) : state :=
  mk_state (periodic_timer s) v (dio_send_ok s) (next_time s) (next_delay s)
           (dis_sended s) (dis_timer s) (rpl_stats_resets s) (dag s) (parent s)
           (calls s).

Definition set_dio_send_ok (v : Z) (s : state) : state :=
  mk_state (periodic_timer s) (next_dis s) v (next_time s) (next_delay s)
           (dis_sended s) (dis_timer s) (rpl_stats_resets s) (dag s) (parent s)
           (calls s).

Definition set_next_time (v : Z) (s : state) : state :=
  mk_state (periodic_timer s) (next_dis s) (dio_send_ok s) v (next_delay s)
           (dis_sended s) (dis_timer s) (rpl_stats_resets s) (dag s) (parent s)
           (calls s).

Definition set_next_delay (v : Z) (s : state) : state :=
  mk_state (periodic_timer s) (next_dis s) (dio_send_ok s) (next_time s) v
           (dis_sended s) (dis_timer s) (rpl_stats_resets s) (dag s) (parent s)
           (calls s).

Definition set_dis_sended (v : Z) (s : state) : state :=
  mk_state (periodic_timer s) (next_dis s) (dio_send_ok s) (next_time s)
           (next_delay s) v (dis_timer s) (rpl_stats_resets s) (dag s)
           (parent s) (calls s).

Definition set_dis_timer (v : ctimer) (s : state) : state :=
  mk_state (periodic_timer s) (next_dis s) (dio_send_ok s) (next_time s)
           (next_delay s) (dis_sended s) v (rpl_stats_resets s) (dag s)
           (parent s) (calls s).

Definition set_rpl_stats_resets (v : Z) (s : state) : state :=
  mk_state (periodic_timer s) (next_dis s) (dio_send_ok s) (next_time s)
           (next_delay s) (dis_sended s) (dis_timer s) v (dag s) (parent s)
           (calls s).

Definition set_dag (v : rpl_dag) (s : state) : state :=
  mk_state (periodic_timer s) (next_dis s) (dio_send_ok s) (next_time s)
           (next_delay s) (dis_sended s) (dis_timer s) (rpl_stats_resets s) v
           (parent s) (calls s).

Definition set_parent (v : rpl_parent) (s : state) : state :=
  mk_state (periodic_timer s) (next_dis s) (dio_send_ok s) (next_time s)
           (next_delay s) (dis_sended s) (dis_timer s) (rpl_stats_resets s)
           (dag s) v (calls s).

(** A call to the rest of the stack is logged. *)
Definition emit (c : call) (s : state) : state :=
  mk_state (periodic_timer s) (next_dis s) (dio_send_ok s) (next_time s)
           (next_delay s) (dis_sended s) (dis_timer s) (rpl_stats_resets s)
           (dag s) (parent s) (calls s ++ [c]).

(** Updates of the DAG and of the parent inside the state. *)
Definition on_dag (u : rpl_dag -> rpl_dag) (s : state) : state :=
  set_dag (u (dag s)) s.

Definition on_parent (u : rpl_parent -> rpl_parent) (s : state) : state :=
  set_parent (u (parent s)) s.

(** [p->dag->preferred_parent == p] *)
Definition is_preferred (p : ptr) (s : state) : bool :=
  match preferred_parent (dag s) with
  | Some q => Z.eqb q p
  | None => false
  end.

(** ** The functions of rpl-timers.c *)

Section RplTimers.

(** Constants and build options that come from headers outside the
    sources: clock ticks per second, the largest value of [random_rand()],
    the DIS period and start delay in seconds, the default DAO latency in
    ticks, and whether the DIS and the statistics code are compiled in. *)
Variable CLOCK_SECOND : Z.
Variable RANDOM_RAND_MAX : Z.
Variable RPL_DIS_INTERVAL : Z.
Variable RPL_DIS_START_DELAY : Z.
Variable DEFAULT_DAO_LATENCY : Z.
Variable RPL_DIS_SEND : bool.
Variable RPL_CONF_STATS : bool.

(** *** The periodic timer *)

(** [no_dag] is the outcome of [rpl_get_dag(RPL_ANY_INSTANCE) == NULL]. *)
Definition handle_periodic_timer (no_dag : bool) (s : state) : state :=
  let s := emit rpl_purge_routes s in
  let s := emit rpl_recalculate_ranks s in
  let s :=
    if RPL_DIS_SEND then
      let s := set_next_dis (wrap16 (next_dis s + 1)) s in
      if no_dag && (RPL_DIS_INTERVAL <=? next_dis s) then
        emit (dis_output None) (set_next_dis 0 s)
      else s
    else s in
  set_periodic_timer (ctimer_reset (periodic_timer s)) s.

Definition rpl_reset_periodic_timer (s : state) : state :=
  let s := set_next_dis (wrap16 (RPL_DIS_INTERVAL - RPL_DIS_START_DELAY)) s in
  set_periodic_timer (ctimer_set CLOCK_SECOND cb_handle_periodic_timer) s.

(** *** The DIO timer *)

(** [new_interval(&time, &next)] with [r] the value of [random_rand()]:
    the new values of [*time] and [*next].  Both are [uint32_t], and
    [CLOCK_SECOND] and the value of [random_rand()] are no wider, so the two
    products, the sum and the difference are taken modulo 2^32. *)
Definition new_interval (time r : Z) : Z * Z :=
  let time := wrap32 (time * CLOCK_SECOND) / 1000 in
  let next := time in
  let time := Z.shiftr time 1 in
  let time := wrap32 (time + wrap32 (time * r) / RANDOM_RAND_MAX) in
  let next := wrap32 (next - time) in
  (time, next).

(** [r_cur] is the random value drawn for the interval that starts (drawn
    only when no look-ahead is stored), [r_next] the one drawn for the
    look-ahead. *)
Definition new_dio_interval (r_cur r_next : Z) (s : state) : state :=
  let '(time, s) :=
    if next_time s =? 0 then
      let '(time, next) :=
        new_interval (shift1UL (dio_intcurrent (dag s))) r_cur in
      (time, on_dag (set_dio_next_delay next) s)
    else
      (next_time s, on_dag (set_dio_next_delay (next_delay s)) s) in
  let s := on_dag (set_dio_send 1) s in
  let s :=
    if RPL_CONF_STATS then
      let s := on_dag (set_dio_totint (dio_totint (dag s) + 1)) s in
      on_dag (set_dio_totrecv (dio_totrecv (dag s) + dio_counter (dag s))) s
    else s in
  let s := on_dag (set_dio_counter 0) s in
  let s := on_dag (set_dio_timer (ctimer_set time cb_handle_dio_timer)) s in
  let '(nt, nd) :=
    new_interval (shift1UL (dio_intcurrent (dag s) + 1)) r_next in
  let s := set_next_delay nd (set_next_time nt s) in
  emit (dio_output_set_next (next_time s) (next_delay s)
                            (dio_next_delay (dag s))) s.

(** The two phases of [handle_dio_timer], once the node may send: the
    first expiry of an interval sends or suppresses the DIO, the second one
    ends the interval. *)
Definition dio_timer_phase (r_cur r_next : Z) (s : state) : state :=
  if negb (dio_send (dag s) =? 0) then
    let s :=
      if dio_counter (dag s) <? dio_redundancy (dag s) then
        let s :=
          if RPL_CONF_STATS then
            on_dag (set_dio_totsend (dio_totsend (dag s) + 1)) s
          else s in
        emit (dio_output None) s
      else s in
    let s := on_dag (set_dio_send 0) s in
    on_dag (set_dio_timer
              (ctimer_set (dio_next_delay (dag s)) cb_handle_dio_timer)) s
  else
    let s :=
      if dio_intcurrent (dag s) <? dio_intmin (dag s) + dio_intdoubl (dag s)
      then on_dag (set_dio_intcurrent (dio_intcurrent (dag s) + 1)) s
      else s in
    new_dio_interval r_cur r_next s.

(** [link_local] is the outcome of
    [uip_ds6_get_link_local(ADDR_PREFERRED) != NULL], asked only while
    [dio_send_ok] is 0. *)
Definition handle_dio_timer (link_local : bool) (r_cur r_next : Z)
           (s : state) : state :=
  if dio_send_ok s =? 0 then
    if link_local then
      dio_timer_phase r_cur r_next (set_dio_send_ok 1 s)
    else
      on_dag (set_dio_timer (ctimer_set CLOCK_SECOND cb_handle_dio_timer)) s
  else dio_timer_phase r_cur r_next s.

Definition rpl_reset_dio_timer (force : Z) (r_cur r_next : Z)
           (s : state) : state :=
  let s :=
    if negb (force =? 0) || (dio_intmin (dag s) <? dio_intcurrent (dag s))
    then
      let s := on_dag (set_dio_counter 0) s in
      let s := on_dag (set_dio_intcurrent (dio_intmin (dag s))) s in
      let s := set_next_time 0 s in
      new_dio_interval r_cur r_next s
    else s in
  if RPL_CONF_STATS then set_rpl_stats_resets (rpl_stats_resets s + 1) s
  else s.

(** *** The DAO timer *)

Definition handle_dao_timer (link_local : bool) (s : state) : state :=
  if (dio_send_ok s =? 0) && negb link_local then
    on_dag (set_dao_timer (ctimer_set CLOCK_SECOND cb_handle_dao_timer)) s
  else
    let s :=
      match preferred_parent (dag s) with
      | Some p => emit (dao_output p (default_lifetime (dag s))) s
      | None => s
      end in
    on_dag (set_dao_timer (ctimer_stop (dao_timer (dag s)))) s.

(** [r] is the value of [random_rand()], drawn only when the timer is
    armed. *)
Definition rpl_schedule_dao (r : Z) (s : state) : state :=
  if negb (etimer_expired (dao_timer (dag s))) then s
  else
    let expiration_time :=
      DEFAULT_DAO_LATENCY / 2 + r mod DEFAULT_DAO_LATENCY in
    on_dag (set_dao_timer (ctimer_set expiration_time cb_handle_dao_timer)) s.

(** *** The predictor of the next DIO *)

(** [now] is the value of [clock_time()] as a [uint32_t]; the clock does not
    advance while a callback runs. *)
Definition rpl_schedule_next_dio_reception (p : ptr)
           (now delay next_time next_delay : Z) (s : state) : state :=
  if is_preferred p s then
    let s := on_parent (set_next_dio_delay next_delay) s in
    let s := on_parent (set_next_dio_time next_time) s in
    let s := on_parent (set_next_dio_start_interval (wrap32 (now + delay))) s in
    on_parent (set_latency_timer
                 (ctimer_set (wrap32 (delay + next_time + next_delay))
                             (cb_handle_next_dio p))) s
  else s.

(** [(100000 * random_rand()) / RANDOM_RAND_MAX], the product taken in 32
    bits. *)
Definition dis_delay (r : Z) : Z := wrap32 (100000 * r) / RANDOM_RAND_MAX.

Definition send_dis (p : ptr) (r : Z) (s : state) : state :=
  if first_dio_received (parent s) =? 0 then
    let s := emit (dis_output (Some p)) s in
    set_dis_timer (ctimer_set (dis_delay r) (cb_send_dis p)) s
  else s.

Definition handle_next_dio (p : ptr) (r : Z) (s : state) : state :=
  if is_preferred p s then
    let s := on_parent (set_first_dio_received 0) s in
    set_dis_timer (ctimer_set (dis_delay r) (cb_send_dis p)) s
  else s.

(** The block guarded by [if (dis_sended)] in [rpl_dio_received]. *)
Definition residual_correction (p : ptr) (now next_time next_delay : Z)
           (s : state) : state :=
  let residual :=
    wrap8 (wrap32 (next_dio_start_interval (parent s)
                   + next_dio_time (parent s) + next_dio_delay (parent s)
                   + next_time - now)) in
  let s :=
    on_parent (set_latency_timer
                 (ctimer_set (wrap32 (residual + next_delay))
                             (cb_handle_next_dio p))) s in
  let s :=
    on_parent (set_next_dio_start_interval
                 (next_dio_start_interval (parent s))) s in
  let s := on_parent (set_next_dio_time next_time) s in
  let s := on_parent (set_next_dio_delay next_delay) s in
  set_dis_sended 0 s.

(** The test on the arrival time and what follows it in
    [rpl_dio_received]. *)
Definition timeliness (p : ptr) (now delay next_time next_delay : Z)
           (s : state) : state :=
  let expected :=
    wrap32 (next_dio_start_interval (parent s) + next_dio_time (parent s)) in
  if expected <? now then
    let s := on_parent (set_latency_metric (wrap32 (now - expected))) s in
    let s := emit (update_metric_container (latency_metric (parent s))) s in
    rpl_schedule_next_dio_reception p now delay next_time next_delay s
  else if wrap32 (next_time + next_delay)
          =? wrap32 (next_dio_time (parent s) + next_dio_delay (parent s))
  then rpl_schedule_next_dio_reception p now delay next_time next_delay s
  else s.

Definition rpl_dio_received (p : ptr) (now delay next_time next_delay : Z)
           (s : state) : state :=
  if is_preferred p s then
    let next_delay := wrap32 (next_delay + 400) in
    if first_dio_received (parent s) =? 0 then
      let s :=
        rpl_schedule_next_dio_reception p now delay next_time next_delay s in
      let s := on_parent (set_first_dio_received 1) s in
      set_dis_sended 0 s
    else
      let s :=
        if negb (dis_sended s =? 0)
        then residual_correction p now next_time next_delay s
        else s in
      timeliness p now delay next_time next_delay s
  else s.

(** ** Definitions used to state the properties *)

(** The interval split as the specification words it, over the integers:
    scale [d] to ticks, take half of it plus a random share of that half,
    and leave the rest for the second part. *)
Definition split_as_specified (d r : Z) : Z * Z :=
  let s := (d * CLOCK_SECOND) / 1000 in
  let firstHalf := s / 2 + ((s / 2) * r) / RANDOM_RAND_MAX in
  (firstHalf, s - firstHalf).

(** The scaled duration, as [new_interval] computes it. *)
Definition scaled_ticks (d : Z) : Z := wrap32 (d * CLOCK_SECOND) / 1000.

(** The statistics counter of resets, bumped on every call when the
    statistics are compiled in. *)
Definition count_reset (s : state) : state :=
  if RPL_CONF_STATS then set_rpl_stats_resets (rpl_stats_resets s + 1) s
  else s.

(** One whole interval with the address in place: the expiry that sends
    or suppresses, then the expiry that ends the interval; the two pairs of
    [o] hold the random values offered to the two expiries. *)
Definition one_interval (o : (Z * Z) * (Z * Z)) (s : state) : state :=
  handle_dio_timer true (fst (snd o)) (snd (snd o))
    (handle_dio_timer true (fst (fst o)) (snd (fst o)) s).

Fixpoint intervals (os : list ((Z * Z) * (Z * Z))) (s : state) : state :=
  match os with
  | [] => s
  | o :: os => intervals os (one_interval o s)
  end.

(** The alarm service finds the DAO timer due: it marks it expired and
    runs [handle_dao_timer].  A timer that is not waiting does not fire. *)
Definition dao_timer_expires (link_local : bool) (s : state) : state :=
  if pending (dao_timer (dag s)) then
    handle_dao_timer link_local
      (on_dag (set_dao_timer (ctimer_expire (dao_timer (dag s)))) s)
  else s.

(** The timer is started and then expires once for every element of
    [fires], each telling whether no DAG was found at that expiry. *)
Fixpoint heartbeat (fires : list bool) (s : state) : state :=
  match fires with
  | [] => s
  | no_dag :: fires => heartbeat fires (handle_periodic_timer no_dag s)
  end.

(** The entry points of the file, each with its arguments and with the
    values it reads from its environment, and the rest of the stack, which
    may change the DAG and the parent (or bring another DAG and parent into
    play) but cannot touch the file-scope variables. *)
Inductive entry : Type :=
| call_rpl_dio_received (p : ptr) (now delay next_time next_delay : Z)
| call_rpl_schedule_next_dio_reception
    (p : ptr) (now delay next_time next_delay : Z)
| call_handle_next_dio (p : ptr) (r : Z)
| call_send_dis (p : ptr) (r : Z)
| call_handle_periodic_timer (no_dag : bool)
| call_rpl_reset_periodic_timer
| call_handle_dio_timer (link_local : bool) (r_cur r_next : Z)
| call_rpl_reset_dio_timer (force r_cur r_next : Z)
| call_handle_dao_timer (link_local : bool)
| call_rpl_schedule_dao (r : Z)
| rest_of_stack (d : rpl_dag) (par : rpl_parent).

Definition run (e : entry) (s : state) : state :=
  match e with
  | call_rpl_dio_received p now delay next_time next_delay =>
      rpl_dio_received p now delay next_time next_delay s
  | call_rpl_schedule_next_dio_reception p now delay next_time next_delay =>
      rpl_schedule_next_dio_reception p now delay next_time next_delay s
  | call_handle_next_dio p r => handle_next_dio p r s
  | call_send_dis p r => send_dis p r s
  | call_handle_periodic_timer no_dag => handle_periodic_timer no_dag s
  | call_rpl_reset_periodic_timer => rpl_reset_periodic_timer s
  | call_handle_dio_timer link_local r_cur r_next =>
      handle_dio_timer link_local r_cur r_next s
  | call_rpl_reset_dio_timer force r_cur r_next =>
      rpl_reset_dio_timer force r_cur r_next s
  | call_handle_dao_timer link_local => handle_dao_timer link_local s
  | call_rpl_schedule_dao r => rpl_schedule_dao r s
  | rest_of_stack d par => set_parent par (set_dag d s)
  end.

(** At start-up the file-scope variables are zero and no timer is set. *)
Definition boot (d : rpl_dag) (par : rpl_parent) : state :=
  mk_state ctimer_idle 0 0 0 0 0 ctimer_idle 0 d par [].

Inductive reachable : state -> Prop :=
| reachable_boot d par : reachable (boot d par)
| reachable_run e s : reachable s -> reachable (run e s).

(** The condition under which [rpl_dio_received] enters the block guarded
    by [if (dis_sended)]. *)
Definition reaches_residual_correction (p : ptr) (s : state) : bool :=
  is_preferred p s
  && negb (first_dio_received (parent s) =? 0)
  && negb (dis_sended s =? 0).

(** ** A node to run the functions on

    A DAG with [dio_intmin = 3], [dio_intdoubl = 2] and redundancy 1, in the
    first part of its first interval, whose preferred parent is the parent at
    address 1, on a platform with 128 ticks per second,
    [RANDOM_RAND_MAX = 65535], a DIS every 60 s after a start delay of 5 s and
    a default DAO latency of 512 ticks. *)
Definition example_dag : rpl_dag :=
  mk_dag 2 3 1 3 1 0 60 0 0 0 255 (Some 1) ctimer_idle ctimer_idle.

Definition fresh_parent : rpl_parent := mk_parent 0 0 0 0 0 ctimer_idle.

Definition example_state : state := boot example_dag fresh_parent.

(** The same node with its address in place and the second part of the
    interval running. *)
Definition second_part_state : state :=
  set_dio_send_ok 1 (on_dag (set_dio_send 0) example_state).


(** ** Sequences of calls *)

(** The DIO timer expires once for every element of [os] while no
    link-local address is there; each element holds the random values offered
    to the expiry. *)
Fixpoint dio_deferrals (os : list (Z * Z)) (s : state) : state :=
  match os with
  | [] => s
  | o :: os => dio_deferrals os (handle_dio_timer false (fst o) (snd o) s)
  end.

(** The DAO timer expires [n] times while no link-local address is
    there. *)
Fixpoint dao_postponements (n : nat) (s : state) : state :=
  match n with
  | O => s
  | S n => dao_postponements n (dao_timer_expires false s)
  end.

(** The entries of [es], one after the other. *)
Fixpoint runs (es : list entry) (s : state) : state :=
  match es with
  | [] => s
  | e :: es => runs es (run e s)
  end.

(** The calls of the predictor made for the parent [p]. *)
Definition predictor_entry (p : ptr) (e : entry) : bool :=
  match e with
  | call_rpl_dio_received q _ _ _ _ => q =? p
  | call_rpl_schedule_next_dio_reception q _ _ _ _ => q =? p
  | call_handle_next_dio q _ => q =? p
  | call_send_dis q _ => q =? p
  | _ => false
  end.

Definition is_send_dis (e : entry) : bool :=
  match e with
  | call_send_dis _ _ => true
  | _ => false
  end.

(** What [n] expiries of the periodic timer log when none of them sends a
    DIS. *)
Fixpoint quiet_beats (n : nat) : list call :=
  match n with
  | O => []
  | S n => rpl_purge_routes :: rpl_recalculate_ranks :: quiet_beats n
  end.

(** The length of the interval the DIO timer is in: the part the timer was
    set for at the start of the interval plus the part kept for the second
    expiry. *)
Definition interval_length (s : state) : Z :=
  interval (dio_timer (dag s)) + dio_next_delay (dag s).

(** ** The wait for the next DIO, in time *)

(** The alarm service finds the latency timer of the parent due: it marks
    it expired and runs its callback; [r] is the random value
    [handle_next_dio] draws.  A timer that is not waiting does not fire. *)
Definition latency_timer_expires (r : Z) (s : state) : state :=
  if pending (latency_timer (parent s)) then
    let s' :=
      on_parent (set_latency_timer (ctimer_expire (latency_timer (parent s))))
                s in
    match f (latency_timer (parent s)) with
    | Some (cb_handle_next_dio q) => handle_next_dio q r s'
    | _ => s'
    end
  else s.

(** The same for the DIS timer; [r] is the random value [send_dis]
    draws. *)
Definition dis_timer_expires (r : Z) (s : state) : state :=
  if pending (dis_timer s) then
    let s' := set_dis_timer (ctimer_expire (dis_timer s)) s in
    match f (dis_timer s) with
    | Some (cb_send_dis q) => send_dis q r s'
    | _ => s'
    end
  else s.

Fixpoint dis_timer_expiries (rs : list Z) (s : state) : state :=
  match rs with
  | [] => s
  | r :: rs => dis_timer_expiries rs (dis_timer_expires r s)
  end.

(** A DIO of the parent [p] received when the clock reads [now], the latency
    timer having been set when it read [set_at].  When the ticks the timer
    was set for have passed by then, the timer has expired first, and the DIS
    timer has since expired once for every element of [rs]: how often depends
    on the random delays, so any number of expiries is allowed for. *)
Definition dio_after_wait (p : ptr) (set_at now r : Z) (rs : list Z)
           (delay next_time next_delay : Z) (s : state) : state :=
  if interval (latency_timer (parent s)) <=? wrap32 (now - set_at) then
    rpl_dio_received p now delay next_time next_delay
      (dis_timer_expiries rs (latency_timer_expires r s))
  else rpl_dio_received p now delay next_time next_delay s.
(** * Properties *)

(** ** Machine arithmetic *)

Lemma wrap32_range z : 0 <= wrap32 z < 4294967296.
Proof. unfold wrap32. apply Z.mod_pos_bound. lia. Qed.

Lemma wrap32_small z : 0 <= z < 4294967296 -> wrap32 z = z.
Proof. intros H. unfold wrap32. apply Z.mod_small. exact H. Qed.

Lemma wrap16_small z : 0 <= z < 65536 -> wrap16 z = z.
Proof. intros H. unfold wrap16. apply Z.mod_small. exact H. Qed.

Lemma half_bounds s : 0 <= s -> 0 <= s / 2 /\ 2 * (s / 2) <= s.
Proof.
  intros Hs.
  pose proof (Z.div_mod s 2 ltac:(lia)).
  pose proof (Z.mod_pos_bound s 2 ltac:(lia)).
  lia.
Qed.

(** ** The randomised interval split *)

Lemma scaled_ticks_range d : 0 <= scaled_ticks d < 4294967296.
Proof.
  unfold scaled_ticks.
  pose proof (wrap32_range (d * CLOCK_SECOND)) as Hm.
  split.
  - apply Z.div_pos; lia.
  - apply Z.div_lt_upper_bound; lia.
Qed.

(** The random share of the half never exceeds the half, also when the
    product wraps. *)
Lemma random_share_le h r :
  0 < RANDOM_RAND_MAX -> 0 <= h -> 0 <= r <= RANDOM_RAND_MAX ->
  0 <= wrap32 (h * r) / RANDOM_RAND_MAX <= h.
Proof.
  intros HR Hh Hr.
  pose proof (wrap32_range (h * r)) as Hm.
  split.
  - apply Z.div_pos; lia.
  - destruct (Z.lt_ge_cases (h * r) 4294967296) as [Hlt | Hge].
    + rewrite wrap32_small by nia.
      apply Z.div_le_upper_bound; nia.
    + apply Z.div_le_upper_bound; nia.
Qed.

Lemma new_interval_eq d r :
  0 < RANDOM_RAND_MAX -> 0 <= r <= RANDOM_RAND_MAX ->
  new_interval d r =
    (scaled_ticks d / 2 + wrap32 (scaled_ticks d / 2 * r) / RANDOM_RAND_MAX,
     scaled_ticks d
     - (scaled_ticks d / 2
        + wrap32 (scaled_ticks d / 2 * r) / RANDOM_RAND_MAX)).
Proof.
  intros HR Hr.
  pose proof (scaled_ticks_range d) as Hs.
  destruct (half_bounds (scaled_ticks d) ltac:(lia)) as [Hh0 Hh].
  pose proof (random_share_le (scaled_ticks d / 2) r HR Hh0 Hr) as Hq.
  unfold new_interval. cbv zeta. fold (scaled_ticks d).
  rewrite Z.shiftr_div_pow2 by lia. change (2 ^ 1) with 2.
  set (h := scaled_ticks d / 2) in *.
  set (q := wrap32 (h * r) / RANDOM_RAND_MAX) in *.
  rewrite (wrap32_small (h + q)) by lia.
  rewrite (wrap32_small (scaled_ticks d - (h + q))) by lia.
  reflexivity.
Qed.

(** C8 (as amended).  For every duration [d] and every random value [r] in
    [0, RANDOM_RAND_MAX], [new_interval] scales [d] to
    [s = ((d * CLOCK_SECOND) mod 2^32) / 1000] ticks and returns
    [firstHalf = s/2 + (((s/2) * r) mod 2^32) / RANDOM_RAND_MAX] and
    [secondHalf = s - firstHalf]: the two products are those of [uint32_t].
    Whatever the products do, [firstHalf] lies in [s/2, s], [secondHalf] in
    [0, s - s/2], and the two add up to [s].  When neither product exceeds
    32 bits the result is the split of the specification. *)
Theorem new_interval_split d r :
  0 < RANDOM_RAND_MAX -> 0 <= r <= RANDOM_RAND_MAX ->
  let s := scaled_ticks d in
  let firstHalf := fst (new_interval d r) in
  let secondHalf := snd (new_interval d r) in
  firstHalf = s / 2 + wrap32 ((s / 2) * r) / RANDOM_RAND_MAX /\
  secondHalf = s - firstHalf /\
  s / 2 <= firstHalf <= s /\
  0 <= secondHalf <= s - s / 2 /\
  firstHalf + secondHalf = s /\
  (0 <= d * CLOCK_SECOND < 4294967296 ->
   (d * CLOCK_SECOND / 1000 / 2) * r < 4294967296 ->
   new_interval d r = split_as_specified d r).
Proof.
  intros HR Hr s firstHalf secondHalf.
  pose proof (scaled_ticks_range d) as Hs. fold s in Hs.
  destruct (half_bounds s ltac:(lia)) as [Hh0 Hh].
  pose proof (random_share_le (s / 2) r HR Hh0 Hr) as Hq.
  assert (E : new_interval d r =
              (s / 2 + wrap32 (s / 2 * r) / RANDOM_RAND_MAX,
               s - (s / 2 + wrap32 (s / 2 * r) / RANDOM_RAND_MAX)))
    by (apply new_interval_eq; assumption).
  subst firstHalf secondHalf. rewrite E. cbn [fst snd].
  repeat split; try lia.
  intros Hd Hp.
  unfold split_as_specified. cbv zeta.
  assert (Es : s = d * CLOCK_SECOND / 1000)
    by (unfold s, scaled_ticks; rewrite wrap32_small by lia; reflexivity).
  rewrite <- Es in Hp |- *.
  rewrite wrap32_small; [reflexivity |].
  split; [apply Z.mul_nonneg_nonneg; lia | exact Hp].
Qed.

(** ** The DIO trickle timer *)

(** What [new_dio_interval] leaves alone and what it sets. *)
Lemma new_dio_interval_dag r_cur r_next s :
  dio_intcurrent (dag (new_dio_interval r_cur r_next s))
  = dio_intcurrent (dag s) /\
  dio_intmin (dag (new_dio_interval r_cur r_next s)) = dio_intmin (dag s) /\
  dio_intdoubl (dag (new_dio_interval r_cur r_next s))
  = dio_intdoubl (dag s) /\
  dio_send (dag (new_dio_interval r_cur r_next s)) = 1 /\
  dio_counter (dag (new_dio_interval r_cur r_next s)) = 0 /\
  dio_send_ok (new_dio_interval r_cur r_next s) = dio_send_ok s.
Proof.
  unfold new_dio_interval.
  destruct (next_time s =? 0);
    repeat match goal with
           | |- context [new_interval ?a ?b] => destruct (new_interval a b)
           end;
    destruct RPL_CONF_STATS; cbn; repeat split; reflexivity.
Qed.

(** With no look-ahead stored, the interval that starts is drawn afresh
    from the current exponent, and the look-ahead is drawn for the next
    exponent. *)
Lemma new_dio_interval_fresh r_cur r_next s :
  next_time s = 0 ->
  dio_timer (dag (new_dio_interval r_cur r_next s))
  = ctimer_set (fst (new_interval (shift1UL (dio_intcurrent (dag s))) r_cur))
               cb_handle_dio_timer /\
  dio_next_delay (dag (new_dio_interval r_cur r_next s))
  = snd (new_interval (shift1UL (dio_intcurrent (dag s))) r_cur) /\
  (next_time (new_dio_interval r_cur r_next s),
   next_delay (new_dio_interval r_cur r_next s))
  = new_interval (shift1UL (dio_intcurrent (dag s) + 1)) r_next.
Proof.
  intros H0. unfold new_dio_interval. rewrite H0. cbn [Z.eqb].
  destruct (new_interval (shift1UL (dio_intcurrent (dag s))) r_cur)
    as [t n] eqn:E1.
  cbn [fst snd].
  destruct RPL_CONF_STATS; cbn [on_dag set_dag dag set_dio_send set_dio_totint
    set_dio_totrecv set_dio_counter set_dio_timer set_dio_next_delay
    dio_intcurrent];
    destruct (new_interval (shift1UL (dio_intcurrent (dag s) + 1)) r_next)
      as [t' n'] eqn:E2; cbn; repeat split; reflexivity.
Qed.

(** The node may send once [dio_send_ok] is set or the link-local address
    is there. *)
Lemma handle_dio_timer_ready link_local r_cur r_next s :
  dio_send_ok s <> 0 \/ link_local = true ->
  handle_dio_timer link_local r_cur r_next s
  = dio_timer_phase r_cur r_next
      (if dio_send_ok s =? 0 then set_dio_send_ok 1 s else s).
Proof.
  intros H. unfold handle_dio_timer.
  destruct (Z.eqb_spec (dio_send_ok s) 0) as [E | E]; [| reflexivity].
  destruct H as [H | ->]; [contradiction | reflexivity].
Qed.

(** The first expiry of an interval leaves the exponent and its bounds
    alone and clears [dio_send]. *)
Lemma send_expiry_dag link_local r_cur r_next s :
  dio_send (dag s) <> 0 ->
  dio_send_ok s <> 0 \/ link_local = true ->
  dio_send (dag (handle_dio_timer link_local r_cur r_next s)) = 0 /\
  dio_intcurrent (dag (handle_dio_timer link_local r_cur r_next s))
  = dio_intcurrent (dag s) /\
  dio_intmin (dag (handle_dio_timer link_local r_cur r_next s))
  = dio_intmin (dag s) /\
  dio_intdoubl (dag (handle_dio_timer link_local r_cur r_next s))
  = dio_intdoubl (dag s).
Proof.
  intros Hsend Hready.
  rewrite handle_dio_timer_ready by exact Hready.
  unfold dio_timer_phase.
  destruct (Z.eqb_spec (dio_send_ok s) 0); cbn;
    (destruct (Z.eqb_spec (dio_send (dag s)) 0); [contradiction |]); cbn;
    destruct (dio_counter (dag s) <? dio_redundancy (dag s));
    destruct RPL_CONF_STATS; cbn; repeat split; reflexivity.
Qed.

(** C7.  When the timer expires with [dio_send] set and the node may send,
    a DIO goes out exactly when [dio_counter < dio_redundancy]; either way
    [dio_send] becomes 0 and the timer is set again for [dio_next_delay],
    the second part computed when the interval started.  The trickle
    fields and the look-ahead are left as they were. *)
Theorem send_phase link_local r_cur r_next s :
  dio_send (dag s) <> 0 ->
  dio_send_ok s <> 0 \/ link_local = true ->
  let s' := handle_dio_timer link_local r_cur r_next s in
  (dio_counter (dag s) < dio_redundancy (dag s) ->
   calls s' = calls s ++ [dio_output None]) /\
  (dio_redundancy (dag s) <= dio_counter (dag s) -> calls s' = calls s) /\
  dio_send (dag s') = 0 /\
  dio_timer (dag s')
  = ctimer_set (dio_next_delay (dag s)) cb_handle_dio_timer /\
  dio_next_delay (dag s') = dio_next_delay (dag s) /\
  dio_counter (dag s') = dio_counter (dag s) /\
  dio_intcurrent (dag s') = dio_intcurrent (dag s) /\
  next_time s' = next_time s /\ next_delay s' = next_delay s.
Proof.
  intros Hsend Hready s'. subst s'.
  rewrite handle_dio_timer_ready by exact Hready.
  unfold dio_timer_phase.
  destruct (Z.eqb_spec (dio_send_ok s) 0) as [E | E]; cbn;
    (destruct (Z.eqb_spec (dio_send (dag s)) 0) as [E' | E'];
     [contradiction |]); cbn;
    (destruct (Z.ltb_spec (dio_counter (dag s)) (dio_redundancy (dag s)))
      as [L | L]);
    destruct RPL_CONF_STATS; cbn; repeat split; intros; try reflexivity;
    lia.
Qed.

(** The second expiry of an interval: the exponent grows by one while it
    is below [dio_intmin + dio_intdoubl], and a new interval starts. *)
Lemma interval_end link_local r_cur r_next s :
  dio_send (dag s) = 0 ->
  dio_send_ok s <> 0 \/ link_local = true ->
  let s' := handle_dio_timer link_local r_cur r_next s in
  dio_intmin (dag s') = dio_intmin (dag s) /\
  dio_intdoubl (dag s') = dio_intdoubl (dag s) /\
  dio_intcurrent (dag s')
  = (if dio_intcurrent (dag s) <? dio_intmin (dag s) + dio_intdoubl (dag s)
     then dio_intcurrent (dag s) + 1 else dio_intcurrent (dag s)) /\
  dio_send (dag s') = 1 /\
  dio_send_ok s' <> 0.
Proof.
  intros Hsend Hready s'. subst s'.
  rewrite handle_dio_timer_ready by exact Hready.
  unfold dio_timer_phase.
  match goal with
  | |- context [new_dio_interval r_cur r_next ?x] =>
      destruct (new_dio_interval_dag r_cur r_next x)
        as (Hc & Hm & Hd & Hs & _ & Hok)
  end.
  destruct (Z.eqb_spec (dio_send_ok s) 0) as [E | E]; cbn in *;
    rewrite Hsend in *; cbn in *;
    (destruct (Z.ltb_spec (dio_intcurrent (dag s))
                          (dio_intmin (dag s) + dio_intdoubl (dag s)))
      as [L | L]); cbn in *;
    rewrite ?Hc, ?Hm, ?Hd, ?Hs, ?Hok; repeat split; try reflexivity;
    try lia; try assumption.
Qed.

Lemma one_interval_exponent o s :
  dio_send (dag s) <> 0 ->
  dio_intmin (dag (one_interval o s)) = dio_intmin (dag s) /\
  dio_intdoubl (dag (one_interval o s)) = dio_intdoubl (dag s) /\
  dio_intcurrent (dag (one_interval o s))
  = (if dio_intcurrent (dag s) <? dio_intmin (dag s) + dio_intdoubl (dag s)
     then dio_intcurrent (dag s) + 1 else dio_intcurrent (dag s)) /\
  dio_send (dag (one_interval o s)) <> 0.
Proof.
  intros Hsend. unfold one_interval.
  destruct o as [[a b] [c d]]. cbn [fst snd].
  destruct (send_expiry_dag true a b s Hsend (or_intror eq_refl))
    as (H0 & Hcur & Hmin & Hdbl).
  pose proof (interval_end true c d (handle_dio_timer true a b s) H0
                (or_intror eq_refl)) as He.
  cbv zeta in He.
  destruct He as (Hm & Hd & Hc & Hs & _).
  rewrite Hm, Hd, Hc, Hs, Hcur, Hmin, Hdbl.
  repeat split; try reflexivity. discriminate.
Qed.

(** C4.  An interval-end expiry keeps
    [dio_intmin <= dio_intcurrent <= dio_intmin + dio_intdoubl]: the minimum
    and the number of doublings are not touched, and the exponent is
    incremented only while it is strictly below the cap.  With
    [dio_intmin = 3] and [dio_intdoubl = 2], the exponent is 3, then 4, 5, 5
    and 5 after one, two, three and four interval ends. *)
Theorem trickle_exponent_bound :
  (forall link_local r_cur r_next s,
      dio_send (dag s) = 0 ->
      dio_send_ok s <> 0 \/ link_local = true ->
      dio_intmin (dag s) <= dio_intcurrent (dag s)
      <= dio_intmin (dag s) + dio_intdoubl (dag s) ->
      let s' := handle_dio_timer link_local r_cur r_next s in
      dio_intmin (dag s') = dio_intmin (dag s) /\
      dio_intdoubl (dag s') = dio_intdoubl (dag s) /\
      dio_intcurrent (dag s')
      = (if dio_intcurrent (dag s)
            <? dio_intmin (dag s) + dio_intdoubl (dag s)
         then dio_intcurrent (dag s) + 1 else dio_intcurrent (dag s)) /\
      dio_intmin (dag s') <= dio_intcurrent (dag s')
      <= dio_intmin (dag s') + dio_intdoubl (dag s')) /\
  (forall o1 o2 o3 o4 s,
      dio_send (dag s) <> 0 ->
      dio_intmin (dag s) = 3 -> dio_intdoubl (dag s) = 2 ->
      dio_intcurrent (dag s) = 3 ->
      dio_intcurrent (dag (intervals [o1] s)) = 4 /\
      dio_intcurrent (dag (intervals [o1; o2] s)) = 5 /\
      dio_intcurrent (dag (intervals [o1; o2; o3] s)) = 5 /\
      dio_intcurrent (dag (intervals [o1; o2; o3; o4] s)) = 5).
Proof.
  split.
  - intros link_local r_cur r_next s Hsend Hready Hb s'.
    destruct (interval_end link_local r_cur r_next s Hsend Hready)
      as (Hm & Hd & Hc & _).
    fold s' in Hm, Hd, Hc.
    rewrite Hm, Hd, Hc.
    repeat split; try reflexivity;
      destruct (Z.ltb_spec (dio_intcurrent (dag s))
                           (dio_intmin (dag s) + dio_intdoubl (dag s)));
      lia.
  - intros o1 o2 o3 o4 s Hsend Hmin Hdbl Hcur.
    cbn [intervals].
    destruct (one_interval_exponent o1 s Hsend) as (Hm1 & Hd1 & Hc1 & Hs1).
    rewrite Hmin, Hdbl, Hcur in *. cbn in Hc1.
    destruct (one_interval_exponent o2 _ Hs1) as (Hm2 & Hd2 & Hc2 & Hs2).
    rewrite Hm1, Hd1, Hc1 in *. cbn in Hc2.
    destruct (one_interval_exponent o3 _ Hs2) as (Hm3 & Hd3 & Hc3 & Hs3).
    rewrite Hm2, Hd2, Hc2 in *. cbn in Hc3.
    destruct (one_interval_exponent o4 _ Hs3) as (Hm4 & Hd4 & Hc4 & Hs4).
    rewrite Hm3, Hd3, Hc3 in *. cbn in Hc4.
    repeat split; assumption.
Qed.

(** C5.  [rpl_reset_dio_timer(dag, force)] with [force = 0] and
    [dio_intcurrent = dio_intmin] leaves the DAG (exponent, redundancy
    counter, timer, phase), the look-ahead pair and the log of calls as they
    were; only the statistics counter of resets moves.  With [force <> 0],
    or with [dio_intcurrent > dio_intmin], it sets
    [dio_intcurrent = dio_intmin] and [dio_counter = 0], clears the
    look-ahead ([next_time = 0]) and starts a new interval: the timer is set
    for the first part of a split drawn afresh from [2^dio_intmin], the
    stored look-ahead being ignored, and the look-ahead is drawn again for
    the exponent [dio_intmin + 1]. *)
Theorem reset_contract force r_cur r_next s :
  let s' := rpl_reset_dio_timer force r_cur r_next s in
  (force = 0 -> dio_intcurrent (dag s) = dio_intmin (dag s) ->
   s' = count_reset s /\
   dag s' = dag s /\
   next_time s' = next_time s /\ next_delay s' = next_delay s /\
   calls s' = calls s) /\
  (force <> 0 \/ dio_intmin (dag s) < dio_intcurrent (dag s) ->
   s' = count_reset
          (new_dio_interval r_cur r_next
             (set_next_time 0
                (on_dag (set_dio_intcurrent (dio_intmin (dag s)))
                   (on_dag (set_dio_counter 0) s)))) /\
   dio_intcurrent (dag s') = dio_intmin (dag s) /\
   dio_intmin (dag s') = dio_intmin (dag s) /\
   dio_counter (dag s') = 0 /\
   dio_send (dag s') = 1 /\
   dio_timer (dag s')
   = ctimer_set (fst (new_interval (shift1UL (dio_intmin (dag s))) r_cur))
                cb_handle_dio_timer /\
   dio_next_delay (dag s')
   = snd (new_interval (shift1UL (dio_intmin (dag s))) r_cur) /\
   (next_time s', next_delay s')
   = new_interval (shift1UL (dio_intmin (dag s) + 1)) r_next).
Proof.
  intros s'. subst s'. unfold rpl_reset_dio_timer. fold count_reset.
  split.
  - intros Hf Hc.
    rewrite Hf, Hc, Z.ltb_irrefl. cbn [Z.eqb negb orb].
    unfold count_reset. destruct RPL_CONF_STATS; repeat split; reflexivity.
  - intros H.
    assert (C : negb (force =? 0)
                || (dio_intmin (dag s) <? dio_intcurrent (dag s)) = true).
    { destruct H as [H | H].
      - destruct (Z.eqb_spec force 0); [contradiction | reflexivity].
      - apply Z.ltb_lt in H. rewrite H. apply orb_true_r. }
    rewrite C.
    set (s0 := set_next_time 0
                 (on_dag (set_dio_intcurrent
                            (dio_intmin (dag (on_dag (set_dio_counter 0) s))))
                    (on_dag (set_dio_counter 0) s))).
    assert (N : next_time s0 = 0) by reflexivity.
    destruct (new_dio_interval_dag r_cur r_next s0)
      as (Hc & Hm & _ & Hs & Hk & _).
    destruct (new_dio_interval_fresh r_cur r_next s0 N) as (Ht & Hd & Hl).
    change (dio_intcurrent (dag s0)) with (dio_intmin (dag s)) in *.
    change (dio_intmin (dag s0)) with (dio_intmin (dag s)) in *.
    split; [reflexivity |].
    unfold count_reset.
    destruct RPL_CONF_STATS; cbn [dag set_rpl_stats_resets next_time
                                    next_delay];
      rewrite Hc, Hm, Hs, Hk, Ht, Hd; repeat split; try reflexivity;
      exact Hl.
Qed.

(** ** The DAO timer *)



(** ** The periodic timer *)

Lemma heartbeat_timer fires s :
  periodic_timer s = ctimer_set CLOCK_SECOND cb_handle_periodic_timer ->
  periodic_timer (heartbeat fires s)
  = ctimer_set CLOCK_SECOND cb_handle_periodic_timer.
Proof.
  revert s. induction fires as [| b fires IH]; intros s H; cbn [heartbeat].
  - exact H.
  - apply IH. unfold handle_periodic_timer.
    destruct RPL_DIS_SEND; cbn;
      try destruct (b && (RPL_DIS_INTERVAL <=? wrap16 (next_dis s + 1)));
      cbn; rewrite H; reflexivity.
Qed.

(** C9.  Every expiry of the periodic timer calls [rpl_purge_routes] and
    [rpl_recalculate_ranks], in this order.  With the DIS code compiled in,
    it then increments [next_dis] (a [uint16_t]) and, exactly when no DAG
    exists and the counter has reached [RPL_DIS_INTERVAL], sets the counter
    to 0 and sends a DIS to everybody.  It always sets the timer again with
    the duration it had: after [rpl_reset_periodic_timer], which sets the
    counter to [RPL_DIS_INTERVAL - RPL_DIS_START_DELAY] and the timer to one
    second, the timer waits for one second after any number of expiries. *)
Theorem maintenance_heartbeat no_dag s :
  let s' := handle_periodic_timer no_dag s in
  let n := wrap16 (next_dis s + 1) in
  let probe := RPL_DIS_SEND && (no_dag && (RPL_DIS_INTERVAL <=? n)) in
  calls s'
  = calls s ++ [rpl_purge_routes; rpl_recalculate_ranks]
            ++ (if probe then [dis_output None] else []) /\
  next_dis s'
  = (if RPL_DIS_SEND then if probe then 0 else n else next_dis s) /\
  periodic_timer s' = ctimer_reset (periodic_timer s) /\
  pending (periodic_timer s') = true /\
  interval (periodic_timer s') = interval (periodic_timer s) /\
  next_dis (rpl_reset_periodic_timer s)
  = wrap16 (RPL_DIS_INTERVAL - RPL_DIS_START_DELAY) /\
  (0 <= RPL_DIS_INTERVAL - RPL_DIS_START_DELAY < 65536 ->
   next_dis (rpl_reset_periodic_timer s)
   = RPL_DIS_INTERVAL - RPL_DIS_START_DELAY) /\
  periodic_timer (rpl_reset_periodic_timer s)
  = ctimer_set CLOCK_SECOND cb_handle_periodic_timer /\
  (forall fires,
      periodic_timer (heartbeat fires (rpl_reset_periodic_timer s))
      = ctimer_set CLOCK_SECOND cb_handle_periodic_timer).
Proof.
  intros s' n probe.
  assert (A : calls s'
              = calls s ++ [rpl_purge_routes; rpl_recalculate_ranks]
                        ++ (if probe then [dis_output None] else []) /\
              next_dis s'
              = (if RPL_DIS_SEND then if probe then 0 else n
                 else next_dis s) /\
              periodic_timer s' = ctimer_reset (periodic_timer s)).
  { subst s' probe n. unfold handle_periodic_timer.
    destruct RPL_DIS_SEND; cbn;
      try destruct (no_dag && (RPL_DIS_INTERVAL <=? wrap16 (next_dis s + 1)));
      cbn; rewrite <- ?app_assoc; cbn; repeat split; reflexivity. }
  destruct A as (A1 & A2 & A3).
  split; [exact A1 |]. split; [exact A2 |]. split; [exact A3 |].
  rewrite A3.
  split; [reflexivity |]. split; [reflexivity |].
  split; [reflexivity |].
  split; [intros H; cbn; apply wrap16_small; exact H |].
  split; [reflexivity |].
  intros fires. apply heartbeat_timer. reflexivity.
Qed.

(** ** The predictor of the next DIO *)

(** The first DIO of the preferred parent, or the first one after
    [handle_next_dio] has given up waiting: the window is taken from the
    DIO. *)
Lemma rpl_dio_received_first p now delay next_time next_delay s :
  is_preferred p s = true ->
  first_dio_received (parent s) = 0 ->
  rpl_dio_received p now delay next_time next_delay s
  = set_dis_sended 0
      (set_parent
         (mk_parent 1 (wrap32 (now + delay)) next_time
                    (wrap32 (next_delay + 400)) (latency_metric (parent s))
                    (ctimer_set
                       (wrap32 (delay + next_time
                                + wrap32 (next_delay + 400)))
                       (cb_handle_next_dio p)))
         s).
Proof.
  intros Hp Hf. unfold rpl_dio_received. rewrite Hp, Hf. cbn [Z.eqb].
  unfold rpl_schedule_next_dio_reception. rewrite Hp. reflexivity.
Qed.

(** A later DIO that arrives after the expected time: the lateness is
    recorded and published, and the window is taken from the DIO. *)
Lemma rpl_dio_received_late p now delay next_time next_delay s :
  is_preferred p s = true ->
  first_dio_received (parent s) <> 0 ->
  dis_sended s = 0 ->
  wrap32 (next_dio_start_interval (parent s) + next_dio_time (parent s))
  < now ->
  let latency :=
    wrap32 (now - wrap32 (next_dio_start_interval (parent s)
                          + next_dio_time (parent s))) in
  rpl_dio_received p now delay next_time next_delay s
  = set_parent
      (mk_parent (first_dio_received (parent s)) (wrap32 (now + delay))
                 next_time (wrap32 (next_delay + 400)) latency
                 (ctimer_set
                    (wrap32 (delay + next_time + wrap32 (next_delay + 400)))
                    (cb_handle_next_dio p)))
      (emit (update_metric_container latency) s).
Proof.
  intros Hp Hf Hd Hl latency. subst latency.
  unfold rpl_dio_received. rewrite Hp, Hd.
  destruct (Z.eqb_spec (first_dio_received (parent s)) 0) as [E | _];
    [contradiction |].
  cbn [Z.eqb negb]. unfold timeliness.
  apply Z.ltb_lt in Hl. rewrite Hl.
  unfold rpl_schedule_next_dio_reception.
  replace (is_preferred p _) with true by (symmetry; exact Hp).
  reflexivity.
Qed.

(** A later DIO that is not late: when the announced sum is the stored
    one the window is taken from the DIO, otherwise nothing happens. *)
Lemma rpl_dio_received_on_time p now delay next_time next_delay s :
  is_preferred p s = true ->
  first_dio_received (parent s) <> 0 ->
  dis_sended s = 0 ->
  now
  <= wrap32 (next_dio_start_interval (parent s) + next_dio_time (parent s)) ->
  rpl_dio_received p now delay next_time next_delay s
  = if wrap32 (next_time + wrap32 (next_delay + 400))
       =? wrap32 (next_dio_time (parent s) + next_dio_delay (parent s))
    then rpl_schedule_next_dio_reception
           p now delay next_time (wrap32 (next_delay + 400)) s
    else s.
Proof.
  intros Hp Hf Hd Hl.
  unfold rpl_dio_received. rewrite Hp, Hd.
  destruct (Z.eqb_spec (first_dio_received (parent s)) 0) as [E | _];
    [contradiction |].
  cbn [Z.eqb negb]. unfold timeliness.
  apply Z.ltb_ge in Hl. rewrite Hl. reflexivity.
Qed.

(** C10.  A DIO of the preferred parent, not the first one, with
    [dis_sended = 0], that is not late (the test [now > start + time] of
    the code fails) and announces a sum [next_time + (next_delay + 400)]
    other than the stored [next_dio_time + next_dio_delay] (both sums as
    the code takes them, in [uint32_t]) leaves the whole state as it was:
    the prediction fields, the latency timer, the file-scope variables and
    the log of calls. *)
Theorem early_changed_schedule_ignored p now delay next_time next_delay s :
  is_preferred p s = true ->
  first_dio_received (parent s) <> 0 ->
  dis_sended s = 0 ->
  now
  <= wrap32 (next_dio_start_interval (parent s) + next_dio_time (parent s)) ->
  wrap32 (next_time + wrap32 (next_delay + 400))
  <> wrap32 (next_dio_time (parent s) + next_dio_delay (parent s)) ->
  rpl_dio_received p now delay next_time next_delay s = s.
Proof.
  intros Hp Hf Hd Hl Hne.
  rewrite rpl_dio_received_on_time by assumption.
  destruct (Z.eqb_spec
              (wrap32 (next_time + wrap32 (next_delay + 400)))
              (wrap32 (next_dio_time (parent s) + next_dio_delay (parent s))))
    as [E | _]; [contradiction | reflexivity].
Qed.

(** C2 (as amended).  When [handle_next_dio] has run for the preferred
    parent (the wait is over and the DIS loop has started,
    [first_dio_received] is 0 again and [dis_sended] is untouched), the next
    DIO of that parent is handled as a first one: the window becomes
    [(now + delay, next_time, next_delay + 400)] with no residual
    correction, the latency timer is set for
    [delay + next_time + next_delay + 400], [first_dio_received] is set,
    [dis_sended] is 0, nothing is published, and [send_dis] no longer sends
    nor sets its timer again. *)
Theorem probe_recovery p r now delay next_time next_delay s :
  is_preferred p s = true ->
  let s1 := handle_next_dio p r s in
  let s2 := rpl_dio_received p now delay next_time next_delay s1 in
  first_dio_received (parent s1) = 0 /\
  dis_sended s1 = dis_sended s /\
  dis_timer s1 = ctimer_set (dis_delay r) (cb_send_dis p) /\
  parent s2
  = mk_parent 1 (wrap32 (now + delay)) next_time (wrap32 (next_delay + 400))
              (latency_metric (parent s))
              (ctimer_set
                 (wrap32 (delay + next_time + wrap32 (next_delay + 400)))
                 (cb_handle_next_dio p)) /\
  dis_sended s2 = 0 /\
  calls s2 = calls s /\
  (forall r', send_dis p r' s2 = s2).
Proof.
  intros Hp s1 s2.
  assert (E1 : s1 = set_dis_timer (ctimer_set (dis_delay r) (cb_send_dis p))
                      (on_parent (set_first_dio_received 0) s)).
  { subst s1. unfold handle_next_dio. rewrite Hp. reflexivity. }
  assert (E2 : s2 = set_dis_sended 0
                      (set_parent
                         (mk_parent 1 (wrap32 (now + delay)) next_time
                            (wrap32 (next_delay + 400))
                            (latency_metric (parent s))
                            (ctimer_set
                               (wrap32 (delay + next_time
                                        + wrap32 (next_delay + 400)))
                               (cb_handle_next_dio p)))
                         s1)).
  { subst s2. rewrite rpl_dio_received_first.
    - rewrite E1. reflexivity.
    - rewrite E1. exact Hp.
    - rewrite E1. reflexivity. }
  rewrite E2. rewrite E1.
  repeat split; reflexivity.
Qed.

(** While [first_dio_received] is 0 and the DIS timer waits for [send_dis],
    every expiry of the DIS timer sends a DIS to the parent and sets the timer
    again; the parent, the DAG and [dis_sended] are not touched. *)
Lemma dis_timer_expiries_probe p rs s :
  first_dio_received (parent s) = 0 ->
  pending (dis_timer s) = true ->
  f (dis_timer s) = Some (cb_send_dis p) ->
  parent (dis_timer_expiries rs s) = parent s /\
  dag (dis_timer_expiries rs s) = dag s /\
  dis_sended (dis_timer_expiries rs s) = dis_sended s /\
  calls (dis_timer_expiries rs s)
  = calls s ++ map (fun _ => dis_output (Some p)) rs.
Proof.
  revert s. induction rs as [| r rs IH]; intros s Hf Hp Hcb;
    cbn [dis_timer_expiries map].
  - rewrite app_nil_r. repeat split; reflexivity.
  - set (s1 := dis_timer_expires r s).
    assert (E : s1 = set_dis_timer (ctimer_set (dis_delay r) (cb_send_dis p))
                       (emit (dis_output (Some p)) s)).
    { subst s1. unfold dis_timer_expires. rewrite Hp, Hcb.
      unfold send_dis. cbn [parent set_dis_timer]. rewrite Hf. reflexivity. }
    destruct (IH s1) as (I1 & I2 & I3 & I4);
      try (rewrite E; first [exact Hf | reflexivity]).
    rewrite I1, I2, I3, I4, E. cbn. rewrite <- app_assoc.
    repeat split; reflexivity.
Qed.

(** C1 (as amended).  The first DIO of the preferred parent, carrying
    [(delay, next_time, next_delay) = (0, 1000, 500)] and received at [now]
    (the clock not wrapping within the time looked at), gives the window
    [now + 1000, now + 1900) and sets the latency timer for 1900 ticks.
    The code compares the arrival of the next DIO with the start of the
    window.  A DIO at or before [now + 1000] records and publishes nothing.
    A DIO after [now + 1000] and before [now + 1900], such as one at
    [now + 1600], records its distance to [now + 1000] in [latency_metric]
    (600) and publishes it through [update_metric_container].  After
    [now + 1900] the latency timer has expired and [handle_next_dio] has
    cleared [first_dio_received]: a DIO arriving then, such as one at
    [now + 2000], is taken as a first DIO, records and publishes no lateness
    (the log only holds the DIS sent meanwhile), and sets the window from its
    own values. *)
Theorem prediction_example p now s :
  is_preferred p s = true ->
  first_dio_received (parent s) = 0 ->
  0 <= now -> now + 2000 < 4294967296 ->
  let s1 := rpl_dio_received p now 0 1000 500 s in
  next_dio_start_interval (parent s1) + next_dio_time (parent s1)
  = now + 1000 /\
  next_dio_start_interval (parent s1) + next_dio_time (parent s1)
  + next_dio_delay (parent s1) = now + 1900 /\
  latency_timer (parent s1) = ctimer_set 1900 (cb_handle_next_dio p) /\
  calls s1 = calls s /\
  latency_metric (parent s1) = latency_metric (parent s) /\
  (forall t r rs delay next_time next_delay,
      0 <= t <= 1000 ->
      let s2 :=
        dio_after_wait p now (now + t) r rs delay next_time next_delay s1 in
      latency_metric (parent s2) = latency_metric (parent s) /\
      calls s2 = calls s) /\
  (forall t r rs delay next_time next_delay,
      1000 < t < 1900 ->
      let s2 :=
        dio_after_wait p now (now + t) r rs delay next_time next_delay s1 in
      latency_metric (parent s2) = t - 1000 /\
      calls s2 = calls s ++ [update_metric_container (t - 1000)]) /\
  (forall r rs delay next_time next_delay,
      let s2 :=
        dio_after_wait p now (now + 1600) r rs delay next_time next_delay s1 in
      latency_metric (parent s2) = 600 /\
      calls s2 = calls s ++ [update_metric_container 600]) /\
  (forall t r rs delay next_time next_delay,
      1900 < t -> now + t < 4294967296 ->
      let s2 :=
        dio_after_wait p now (now + t) r rs delay next_time next_delay s1 in
      latency_metric (parent s2) = latency_metric (parent s) /\
      calls s2 = calls s ++ map (fun _ => dis_output (Some p)) rs /\
      first_dio_received (parent s2) = 1 /\
      next_dio_start_interval (parent s2) = wrap32 (now + t + delay) /\
      next_dio_time (parent s2) = next_time /\
      next_dio_delay (parent s2) = wrap32 (next_delay + 400)) /\
  (forall r rs delay next_time next_delay,
      let s2 :=
        dio_after_wait p now (now + 2000) r rs delay next_time next_delay s1 in
      latency_metric (parent s2) = latency_metric (parent s) /\
      calls s2 = calls s ++ map (fun _ => dis_output (Some p)) rs).
Proof.
  intros Hp Hf Hn0 Hn s1.
  assert (E1 : s1 = set_dis_sended 0
                      (set_parent
                         (mk_parent 1 now 1000 900 (latency_metric (parent s))
                                    (ctimer_set 1900 (cb_handle_next_dio p)))
                         s)).
  { subst s1. rewrite rpl_dio_received_first by assumption.
    rewrite Z.add_0_r, (wrap32_small now) by lia. reflexivity. }
  assert (P1 : is_preferred p s1 = true) by (rewrite E1; exact Hp).
  assert (F1 : first_dio_received (parent s1) <> 0)
    by (rewrite E1; cbn; discriminate).
  assert (D1 : dis_sended s1 = 0) by (rewrite E1; reflexivity).
  assert (W1 : wrap32 (next_dio_start_interval (parent s1)
                       + next_dio_time (parent s1)) = now + 1000).
  { rewrite E1. cbn. apply wrap32_small. lia. }
  assert (T1 : interval (latency_timer (parent s1)) = 1900)
    by (rewrite E1; reflexivity).
  assert (before : forall t r rs delay next_time next_delay,
             0 <= t < 1900 ->
             dio_after_wait p now (now + t) r rs delay next_time next_delay s1
             = rpl_dio_received p (now + t) delay next_time next_delay s1).
  { intros t r rs delay next_time next_delay Ht. unfold dio_after_wait.
    rewrite T1. replace (now + t - now) with t by lia.
    rewrite (wrap32_small t) by lia.
    destruct (Z.leb_spec 1900 t); [lia | reflexivity]. }
  assert (late : forall t r rs delay next_time next_delay,
             1000 < t < 1900 ->
             let s2 :=
               dio_after_wait p now (now + t) r rs delay next_time next_delay
                              s1 in
             latency_metric (parent s2) = t - 1000 /\
             calls s2 = calls s ++ [update_metric_container (t - 1000)]).
  { intros t r rs delay next_time next_delay Ht s2. subst s2.
    rewrite before by lia.
    rewrite rpl_dio_received_late by (try assumption; rewrite W1; lia).
    rewrite W1.
    replace (now + t - (now + 1000)) with (t - 1000) by lia.
    rewrite (wrap32_small (t - 1000)) by lia.
    rewrite E1. split; reflexivity. }
  assert (after : forall t r rs delay next_time next_delay,
             1900 < t -> now + t < 4294967296 ->
             let s2 :=
               dio_after_wait p now (now + t) r rs delay next_time next_delay
                              s1 in
             latency_metric (parent s2) = latency_metric (parent s) /\
             calls s2 = calls s ++ map (fun _ => dis_output (Some p)) rs /\
             first_dio_received (parent s2) = 1 /\
             next_dio_start_interval (parent s2) = wrap32 (now + t + delay) /\
             next_dio_time (parent s2) = next_time /\
             next_dio_delay (parent s2) = wrap32 (next_delay + 400)).
  { intros t r rs delay next_time next_delay Ht Hw s2. subst s2.
    unfold dio_after_wait.
    rewrite T1. replace (now + t - now) with t by lia.
    rewrite (wrap32_small t) by lia.
    destruct (Z.leb_spec 1900 t) as [_ | C]; [| lia].
    set (sx := latency_timer_expires r s1).
    assert (Ex : sx = set_dis_timer (ctimer_set (dis_delay r) (cb_send_dis p))
                        (on_parent (set_first_dio_received 0)
                           (on_parent
                              (set_latency_timer
                                 (ctimer_expire (latency_timer (parent s1))))
                              s1))).
    { subst sx. unfold latency_timer_expires.
      rewrite E1. cbn [parent set_dis_sended set_parent latency_timer
                       pending f ctimer_set].
      unfold handle_next_dio.
      replace (is_preferred p _) with true by (symmetry; exact Hp).
      reflexivity. }
    destruct (dis_timer_expiries_probe p rs sx) as (Q1 & Q2 & Q3 & Q4);
      try (rewrite Ex; reflexivity).
    set (sy := dis_timer_expiries rs sx) in *.
    assert (Py : is_preferred p sy = true).
    { unfold is_preferred. rewrite Q2, Ex. exact P1. }
    assert (Fy : first_dio_received (parent sy) = 0)
      by (rewrite Q1, Ex; reflexivity).
    rewrite (rpl_dio_received_first p (now + t) delay next_time next_delay sy
               Py Fy).
    cbn [parent set_dis_sended set_parent latency_metric first_dio_received
         next_dio_start_interval next_dio_time next_dio_delay calls].
    rewrite Q1, Q4, Ex, E1.
    repeat split; reflexivity. }
  split; [rewrite E1; cbn; lia |].
  split; [rewrite E1; cbn; lia |].
  split; [rewrite E1; reflexivity |].
  split; [rewrite E1; reflexivity |].
  split; [rewrite E1; reflexivity |].
  split.
  { intros t r rs delay next_time next_delay Ht s2. subst s2.
    rewrite before by lia.
    rewrite rpl_dio_received_on_time by (try assumption; rewrite W1; lia).
    destruct (_ =? _).
    + unfold rpl_schedule_next_dio_reception. rewrite P1.
      rewrite E1. split; reflexivity.
    + rewrite E1. split; reflexivity. }
  split; [exact late |].
  split.
  { intros r rs delay next_time next_delay.
    apply (late 1600 r rs delay next_time next_delay). lia. }
  split; [exact after |].
  intros r rs delay next_time next_delay s2.
  destruct (after 2000 r rs delay next_time next_delay ltac:(lia) ltac:(lia))
    as (A1 & A2 & _).
  split; [exact A1 | exact A2].
Qed.

(** Were [dis_sended] ever nonzero on a later DIO of the preferred parent,
    the window and the timer written by the block guarded by
    [if (dis_sended)] would not survive the call: the test on the arrival
    time follows the block, is not an alternative to it, and both of its
    outcomes set the window from the DIO again. *)
Lemma residual_correction_overwritten p now delay next_time next_delay s :
  is_preferred p s = true ->
  first_dio_received (parent s) <> 0 ->
  dis_sended s <> 0 ->
  let s' := rpl_dio_received p now delay next_time next_delay s in
  next_dio_start_interval (parent s') = wrap32 (now + delay) /\
  next_dio_time (parent s') = next_time /\
  next_dio_delay (parent s') = wrap32 (next_delay + 400) /\
  latency_timer (parent s')
  = ctimer_set (wrap32 (delay + next_time + wrap32 (next_delay + 400)))
               (cb_handle_next_dio p) /\
  dis_sended s' = 0.
Proof.
  intros Hp Hf Hd s'. subst s'.
  unfold rpl_dio_received. rewrite Hp.
  destruct (Z.eqb_spec (first_dio_received (parent s)) 0) as [E | _];
    [contradiction |].
  destruct (Z.eqb_spec (dis_sended s) 0) as [E | _]; [contradiction |].
  cbn [negb]. unfold timeliness, residual_correction.
  cbn [parent on_parent set_parent set_dis_sended set_latency_timer
       set_next_dio_start_interval set_next_dio_time set_next_dio_delay
       next_dio_start_interval next_dio_time next_dio_delay].
  unfold rpl_schedule_next_dio_reception.
  destruct (_ <? _).
  - replace (is_preferred p _) with true by (symmetry; exact Hp).
    repeat split; reflexivity.
  - rewrite Z.eqb_refl.
    replace (is_preferred p _) with true by (symmetry; exact Hp).
    repeat split; reflexivity.
Qed.

(** ** The states the file can be in *)

Lemma rpl_dio_received_paths p now delay next_time next_delay s :
  rpl_dio_received p now delay next_time next_delay s
  = if reaches_residual_correction p s then
      timeliness p now delay next_time (wrap32 (next_delay + 400))
        (residual_correction p now next_time (wrap32 (next_delay + 400)) s)
    else if is_preferred p s then
      if first_dio_received (parent s) =? 0 then
        set_dis_sended 0
          (on_parent (set_first_dio_received 1)
             (rpl_schedule_next_dio_reception
                p now delay next_time (wrap32 (next_delay + 400)) s))
      else timeliness p now delay next_time (wrap32 (next_delay + 400)) s
    else s.
Proof.
  unfold rpl_dio_received, reaches_residual_correction.
  destruct (is_preferred p s); [| reflexivity].
  destruct (first_dio_received (parent s) =? 0); [reflexivity |].
  destruct (dis_sended s =? 0); reflexivity.
Qed.

Lemma new_dio_interval_dis_sended r_cur r_next s :
  dis_sended (new_dio_interval r_cur r_next s) = dis_sended s.
Proof.
  unfold new_dio_interval.
  destruct (next_time s =? 0);
    repeat match goal with
           | |- context [new_interval ?a ?b] => destruct (new_interval a b)
           end;
    destruct RPL_CONF_STATS; reflexivity.
Qed.

Lemma dio_timer_phase_dis_sended r_cur r_next s :
  dis_sended (dio_timer_phase r_cur r_next s) = dis_sended s.
Proof.
  unfold dio_timer_phase.
  destruct (negb _).
  - destruct (_ <? _); destruct RPL_CONF_STATS; reflexivity.
  - rewrite new_dio_interval_dis_sended.
    destruct (_ <? _); reflexivity.
Qed.

Lemma rpl_schedule_next_dio_reception_dis_sended
      p now delay next_time next_delay s :
  dis_sended (rpl_schedule_next_dio_reception p now delay next_time
                                              next_delay s)
  = dis_sended s.
Proof.
  unfold rpl_schedule_next_dio_reception.
  destruct (is_preferred p s); reflexivity.
Qed.

Lemma timeliness_dis_sended p now delay next_time next_delay s :
  dis_sended (timeliness p now delay next_time next_delay s) = dis_sended s.
Proof.
  unfold timeliness.
  destruct (_ <? _); [| destruct (_ =? _)];
    rewrite ?rpl_schedule_next_dio_reception_dis_sended; reflexivity.
Qed.

(** No entry point stores anything but 0 in [dis_sended]. *)
Lemma run_dis_sended e s :
  dis_sended (run e s) = dis_sended s \/ dis_sended (run e s) = 0.
Proof.
  destruct e; cbn [run].
  - rewrite rpl_dio_received_paths.
    destruct (reaches_residual_correction p s).
    + right. rewrite timeliness_dis_sended. reflexivity.
    + destruct (is_preferred p s); [| left; reflexivity].
      destruct (_ =? _); [right; reflexivity |].
      left. apply timeliness_dis_sended.
  - left. apply rpl_schedule_next_dio_reception_dis_sended.
  - left. unfold handle_next_dio. destruct (is_preferred p s); reflexivity.
  - left. unfold send_dis. destruct (_ =? _); reflexivity.
  - left. unfold handle_periodic_timer.
    destruct RPL_DIS_SEND; [destruct (_ && _) |]; reflexivity.
  - left. reflexivity.
  - left. unfold handle_dio_timer.
    destruct (dio_send_ok s =? 0); [destruct link_local |];
      rewrite ?dio_timer_phase_dis_sended; reflexivity.
  - left. unfold rpl_reset_dio_timer.
    destruct (_ || _); destruct RPL_CONF_STATS;
      cbn [dis_sended set_rpl_stats_resets];
      rewrite ?new_dio_interval_dis_sended; reflexivity.
  - left. unfold handle_dao_timer.
    destruct (_ && _); [| destruct (preferred_parent (dag s))];
      reflexivity.
  - left. unfold rpl_schedule_dao. destruct (negb _); reflexivity.
  - left. reflexivity.
Qed.

(** C3.  In every reachable state [dis_sended] is 0: it is 0 at start-up,
    and every entry point of the file leaves it as it is or stores 0.
    Hence [rpl_dio_received] never enters the block guarded by
    [if (dis_sended)], and [dis_sended] is still 0 after the next call. *)
Theorem dis_sended_always_zero s :
  reachable s ->
  dis_sended s = 0 /\
  (forall p, reaches_residual_correction p s = false) /\
  (forall e, dis_sended (run e s) = 0) /\
  (forall e s0,
      dis_sended (run e s0) = dis_sended s0 \/ dis_sended (run e s0) = 0).
Proof.
  intros H.
  assert (Z0 : dis_sended s = 0).
  { induction H as [d par | e s H IH].
    - reflexivity.
    - destruct (run_dis_sended e s) as [E | E]; congruence. }
  split; [exact Z0 |].
  split.
  - intros p. unfold reaches_residual_correction.
    rewrite Z0. cbn. apply andb_false_r.
  - split.
    + intros e. destruct (run_dis_sended e s) as [E | E]; congruence.
    + exact run_dis_sended.
Qed.

(** * Further properties *)

(** ** The DIO timer: postponement, look-ahead and statistics *)

(** The two outcomes of [rpl_reset_dio_timer]. *)
Lemma reset_test force s :
  force <> 0 \/ dio_intmin (dag s) < dio_intcurrent (dag s) ->
  negb (force =? 0) || (dio_intmin (dag s) <? dio_intcurrent (dag s)) = true.
Proof.
  intros [H | H].
  - destruct (Z.eqb_spec force 0); [contradiction | reflexivity].
  - apply Z.ltb_lt in H. rewrite H. apply orb_true_r.
Qed.

Lemma rpl_reset_dio_timer_effect force r_cur r_next s :
  force <> 0 \/ dio_intmin (dag s) < dio_intcurrent (dag s) ->
  rpl_reset_dio_timer force r_cur r_next s
  = count_reset
      (new_dio_interval r_cur r_next
         (set_next_time 0
            (on_dag (set_dio_intcurrent
                       (dio_intmin (dag (on_dag (set_dio_counter 0) s))))
               (on_dag (set_dio_counter 0) s)))).
Proof.
  intros H. unfold rpl_reset_dio_timer, count_reset.
  rewrite (reset_test force s H). reflexivity.
Qed.

Lemma count_reset_keeps s :
  dag (count_reset s) = dag s /\
  dio_send_ok (count_reset s) = dio_send_ok s /\
  rpl_stats_resets (count_reset s)
  = (if RPL_CONF_STATS then rpl_stats_resets s + 1 else rpl_stats_resets s).
Proof.
  unfold count_reset. destruct RPL_CONF_STATS; repeat split; reflexivity.
Qed.

(** Neither phase of [handle_dio_timer] reads the timer it sets. *)
Lemma new_dio_interval_timer_irrelevant t r_cur r_next s :
  new_dio_interval r_cur r_next (on_dag (set_dio_timer t) s)
  = new_dio_interval r_cur r_next s.
Proof.
  unfold new_dio_interval.
  change (next_time (on_dag (set_dio_timer t) s)) with (next_time s).
  change (dio_intcurrent (dag (on_dag (set_dio_timer t) s)))
    with (dio_intcurrent (dag s)).
  destruct (next_time s =? 0);
    [destruct (new_interval (shift1UL (dio_intcurrent (dag s))) r_cur) |];
    destruct RPL_CONF_STATS; cbn -[new_interval shift1UL];
    destruct (new_interval (shift1UL (dio_intcurrent (dag s) + 1)) r_next);
    reflexivity.
Qed.

Lemma dio_timer_phase_timer_irrelevant t r_cur r_next s :
  dio_timer_phase r_cur r_next (on_dag (set_dio_timer t) s)
  = dio_timer_phase r_cur r_next s.
Proof.
  unfold dio_timer_phase.
  change (dio_send (dag (on_dag (set_dio_timer t) s))) with (dio_send (dag s)).
  destruct (negb (dio_send (dag s) =? 0)).
  - cbn. destruct (dio_counter (dag s) <? dio_redundancy (dag s));
      destruct RPL_CONF_STATS; reflexivity.
  - cbn [on_dag set_dag dag set_dio_timer dio_intcurrent dio_intmin
         dio_intdoubl].
    destruct (dio_intcurrent (dag s) <? dio_intmin (dag s) + dio_intdoubl (dag s)).
    + exact (new_dio_interval_timer_irrelevant t r_cur r_next
               (on_dag (set_dio_intcurrent (dio_intcurrent (dag s) + 1)) s)).
    + apply new_dio_interval_timer_irrelevant.
Qed.

(** With a look-ahead stored, the interval that starts is the stored one. *)
Lemma new_dio_interval_lookahead r_cur r_next s :
  next_time s <> 0 ->
  dio_timer (dag (new_dio_interval r_cur r_next s))
  = ctimer_set (next_time s) cb_handle_dio_timer /\
  dio_next_delay (dag (new_dio_interval r_cur r_next s)) = next_delay s.
Proof.
  intros H. unfold new_dio_interval.
  destruct (Z.eqb_spec (next_time s) 0) as [E | _]; [contradiction |].
  destruct RPL_CONF_STATS; cbn -[new_interval shift1UL];
    destruct (new_interval (shift1UL (dio_intcurrent (dag s) + 1)) r_next);
    split; reflexivity.
Qed.

(** Every new interval draws the look-ahead for the next exponent and
    hands it, with the second part of the interval that starts, to
    [dio_output_set_next]. *)
Lemma new_dio_interval_advertises r_cur r_next s :
  (next_time (new_dio_interval r_cur r_next s),
   next_delay (new_dio_interval r_cur r_next s))
  = new_interval (shift1UL (dio_intcurrent (dag s) + 1)) r_next /\
  calls (new_dio_interval r_cur r_next s)
  = calls s
    ++ [dio_output_set_next
          (next_time (new_dio_interval r_cur r_next s))
          (next_delay (new_dio_interval r_cur r_next s))
          (dio_next_delay (dag (new_dio_interval r_cur r_next s)))].
Proof.
  unfold new_dio_interval.
  destruct (next_time s =? 0);
    [destruct (new_interval (shift1UL (dio_intcurrent (dag s))) r_cur) |];
    destruct RPL_CONF_STATS; cbn -[new_interval shift1UL];
    destruct (new_interval (shift1UL (dio_intcurrent (dag s) + 1)) r_next);
    split; reflexivity.
Qed.

(** The first expiry of an interval does not touch the look-ahead. *)
Lemma send_expiry_lookahead link_local r_cur r_next s :
  dio_send (dag s) <> 0 ->
  dio_send_ok s <> 0 \/ link_local = true ->
  next_time (handle_dio_timer link_local r_cur r_next s) = next_time s /\
  next_delay (handle_dio_timer link_local r_cur r_next s) = next_delay s /\
  dio_send_ok (handle_dio_timer link_local r_cur r_next s) <> 0.
Proof.
  intros Hsend Hready.
  rewrite handle_dio_timer_ready by exact Hready.
  unfold dio_timer_phase.
  destruct (Z.eqb_spec (dio_send_ok s) 0); cbn;
    (destruct (Z.eqb_spec (dio_send (dag s)) 0); [contradiction |]); cbn;
    destruct (dio_counter (dag s) <? dio_redundancy (dag s));
    destruct RPL_CONF_STATS; cbn; repeat split; try reflexivity;
    try assumption; discriminate.
Qed.

(** The second expiry of an interval starts the stored interval. *)
Lemma interval_end_lookahead link_local r_cur r_next s :
  dio_send (dag s) = 0 ->
  dio_send_ok s <> 0 \/ link_local = true ->
  next_time s <> 0 ->
  dio_timer (dag (handle_dio_timer link_local r_cur r_next s))
  = ctimer_set (next_time s) cb_handle_dio_timer /\
  dio_next_delay (dag (handle_dio_timer link_local r_cur r_next s))
  = next_delay s.
Proof.
  intros Hsend Hready Hnt.
  rewrite handle_dio_timer_ready by exact Hready.
  unfold dio_timer_phase.
  destruct (Z.eqb_spec (dio_send_ok s) 0);
    cbn [dag set_dio_send_ok]; rewrite Hsend; cbn [Z.eqb negb];
    destruct (dio_intcurrent (dag s) <? dio_intmin (dag s) + dio_intdoubl (dag s));
    match goal with
    | |- context [new_dio_interval _ _ ?x] =>
        exact (new_dio_interval_lookahead r_cur r_next x Hnt)
    end.
Qed.

(** X2.  While no link-local address is there, an expiry of the DIO timer
    only sets the timer again for one second: [dio_send_ok] stays 0, nothing
    is sent, and the phase, the exponent, the redundancy counter and the
    look-ahead are not touched.  The expiry that finds the address does
    exactly what it would have done had no postponement taken place. *)
Theorem deferral_keeps_interval os r_cur r_next s :
  dio_send_ok s = 0 ->
  dio_send_ok (dio_deferrals os s) = 0 /\
  calls (dio_deferrals os s) = calls s /\
  next_time (dio_deferrals os s) = next_time s /\
  next_delay (dio_deferrals os s) = next_delay s /\
  (os <> [] ->
   dag (dio_deferrals os s)
   = set_dio_timer (ctimer_set CLOCK_SECOND cb_handle_dio_timer) (dag s)) /\
  handle_dio_timer true r_cur r_next (dio_deferrals os s)
  = handle_dio_timer true r_cur r_next s.
Proof.
  revert s. induction os as [| o os IH]; intros s Hok; cbn [dio_deferrals].
  - repeat split; try assumption; try reflexivity. intros H. contradiction.
  - set (s1 := handle_dio_timer false (fst o) (snd o) s).
    assert (E1 : s1 = on_dag (set_dio_timer
                                (ctimer_set CLOCK_SECOND cb_handle_dio_timer))
                        s).
    { subst s1. unfold handle_dio_timer. rewrite Hok. reflexivity. }
    assert (Hok1 : dio_send_ok s1 = 0) by (rewrite E1; exact Hok).
    destruct (IH s1 Hok1) as (I1 & I2 & I3 & I4 & I5 & I6).
    rewrite I1, I2, I3, I4, I6.
    split; [reflexivity |].
    split; [rewrite E1; reflexivity |].
    split; [rewrite E1; reflexivity |].
    split; [rewrite E1; reflexivity |].
    split.
    + intros _. destruct os as [| o' os].
      * cbn. rewrite E1. reflexivity.
      * rewrite I5 by discriminate. rewrite E1. reflexivity.
    + rewrite E1. unfold handle_dio_timer.
      change (dio_send_ok (on_dag _ s)) with (dio_send_ok s).
      rewrite Hok. cbn [Z.eqb].
      exact (dio_timer_phase_timer_irrelevant _ r_cur r_next
               (set_dio_send_ok 1 s)).
Qed.

(** X3.  Whatever it finds, [handle_dio_timer] returns with the DIO timer
    waiting and itself as the callback, and so does [rpl_reset_dio_timer]
    when it takes effect: the trickle timer never stays disarmed. *)
Theorem dio_timer_rearmed link_local force r_cur r_next s :
  pending (dio_timer (dag (handle_dio_timer link_local r_cur r_next s)))
  = true /\
  f (dio_timer (dag (handle_dio_timer link_local r_cur r_next s)))
  = Some cb_handle_dio_timer /\
  (force <> 0 \/ dio_intmin (dag s) < dio_intcurrent (dag s) ->
   pending (dio_timer (dag (rpl_reset_dio_timer force r_cur r_next s)))
   = true /\
   f (dio_timer (dag (rpl_reset_dio_timer force r_cur r_next s)))
   = Some cb_handle_dio_timer).
Proof.
  assert (N : forall a b x,
             pending (dio_timer (dag (new_dio_interval a b x))) = true /\
             f (dio_timer (dag (new_dio_interval a b x)))
             = Some cb_handle_dio_timer).
  { intros a b x. unfold new_dio_interval.
    destruct (next_time x =? 0);
      [destruct (new_interval (shift1UL (dio_intcurrent (dag x))) a) |];
      destruct RPL_CONF_STATS; cbn -[new_interval shift1UL];
      destruct (new_interval (shift1UL (dio_intcurrent (dag x) + 1)) b);
      split; reflexivity. }
  assert (P : forall x,
             pending (dio_timer (dag (dio_timer_phase r_cur r_next x))) = true /\
             f (dio_timer (dag (dio_timer_phase r_cur r_next x)))
             = Some cb_handle_dio_timer).
  { intros x. unfold dio_timer_phase.
    destruct (negb (dio_send (dag x) =? 0)).
    - destruct (_ <? _); destruct RPL_CONF_STATS; split; reflexivity.
    - apply N. }
  split; [| split].
  - unfold handle_dio_timer.
    destruct (dio_send_ok s =? 0); [destruct link_local |];
      try apply P; reflexivity.
  - unfold handle_dio_timer.
    destruct (dio_send_ok s =? 0); [destruct link_local |];
      try apply P; reflexivity.
  - intros H. rewrite (rpl_reset_dio_timer_effect force r_cur r_next s H).
    rewrite (proj1 (count_reset_keeps _)). apply N.
Qed.

(** X4.  The interval that follows an interval started by
    [new_dio_interval] is the one that was handed to [dio_output_set_next]:
    its first part is the stored [next_time], its second part the stored
    [next_delay], so it lasts what an interval of the exponent
    [dio_intcurrent + 1] lasts.  This also holds at the cap
    [dio_intmin + dio_intdoubl], where the exponent is not incremented: the
    interval then lasts twice what the exponent stands for. *)
Theorem next_interval_length r_cur r_next o s :
  0 < RANDOM_RAND_MAX -> 0 <= r_next <= RANDOM_RAND_MAX ->
  next_time (new_dio_interval r_cur r_next s) <> 0 ->
  let s1 := new_dio_interval r_cur r_next s in
  let s2 := one_interval o s1 in
  calls s1
  = calls s ++ [dio_output_set_next (next_time s1) (next_delay s1)
                                    (dio_next_delay (dag s1))] /\
  dio_timer (dag s2) = ctimer_set (next_time s1) cb_handle_dio_timer /\
  dio_next_delay (dag s2) = next_delay s1 /\
  interval_length s2 = scaled_ticks (shift1UL (dio_intcurrent (dag s) + 1)) /\
  dio_intcurrent (dag s2)
  = (if dio_intcurrent (dag s) <? dio_intmin (dag s) + dio_intdoubl (dag s)
     then dio_intcurrent (dag s) + 1 else dio_intcurrent (dag s)).
Proof.
  intros HR Hr Hnt s1 s2.
  destruct (new_dio_interval_advertises r_cur r_next s) as [Hpair Hcalls].
  fold s1 in Hpair, Hcalls, Hnt.
  destruct (new_dio_interval_dag r_cur r_next s)
    as (Hc1 & Hm1 & Hd1 & Hs1 & _ & _).
  fold s1 in Hc1, Hm1, Hd1, Hs1.
  assert (Hsend1 : dio_send (dag s1) <> 0) by (rewrite Hs1; discriminate).
  destruct o as [[a b] [c d]].
  subst s2. unfold one_interval. cbn [fst snd].
  set (sm := handle_dio_timer true a b s1).
  destruct (send_expiry_dag true a b s1 Hsend1 (or_intror eq_refl))
    as (Hm0 & Hmc & Hmm & Hmd).
  destruct (send_expiry_lookahead true a b s1 Hsend1 (or_intror eq_refl))
    as (Hnt' & Hnd' & _).
  fold sm in Hm0, Hmc, Hmm, Hmd, Hnt', Hnd'.
  assert (Hntm : next_time sm <> 0) by (rewrite Hnt'; exact Hnt).
  destruct (interval_end_lookahead true c d sm Hm0 (or_intror eq_refl) Hntm)
    as (Ht & Hd).
  pose proof (interval_end true c d sm Hm0 (or_intror eq_refl)) as He.
  cbv zeta in He. destruct He as (_ & _ & Hc & _).
  rewrite Hnt' in Ht. rewrite Hnd' in Hd.
  split; [exact Hcalls |].
  split; [exact Ht |].
  split; [exact Hd |].
  split.
  - unfold interval_length. rewrite Ht, Hd. cbn [interval ctimer_set].
    rewrite (new_interval_eq (shift1UL (dio_intcurrent (dag s) + 1)) r_next
               HR Hr) in Hpair.
    injection Hpair as E1 E2. rewrite E1, E2. lia.
  - rewrite Hc, Hmc, Hmm, Hmd, Hc1, Hm1, Hd1. reflexivity.
Qed.

(** X5.  With the statistics compiled in, the first expiry of an interval
    counts a sent DIO exactly when it sends one, and the second expiry counts
    one more interval and adds the DIOs heard, [dio_counter], to
    [dio_totrecv].  A reset that takes effect counts one more interval and one
    more reset but adds nothing to [dio_totrecv]: it zeroes [dio_counter]
    before the new interval reads it, so the DIOs heard in the interval cut
    short are not counted. *)
Theorem statistics_accounting link_local force r_cur r_next s :
  RPL_CONF_STATS = true ->
  dio_send_ok s <> 0 \/ link_local = true ->
  (dio_send (dag s) <> 0 ->
   dio_totint (dag (handle_dio_timer link_local r_cur r_next s))
   = dio_totint (dag s) /\
   dio_totrecv (dag (handle_dio_timer link_local r_cur r_next s))
   = dio_totrecv (dag s) /\
   dio_totsend (dag (handle_dio_timer link_local r_cur r_next s))
   = dio_totsend (dag s)
     + (if dio_counter (dag s) <? dio_redundancy (dag s) then 1 else 0)) /\
  (dio_send (dag s) = 0 ->
   dio_totint (dag (handle_dio_timer link_local r_cur r_next s))
   = dio_totint (dag s) + 1 /\
   dio_totrecv (dag (handle_dio_timer link_local r_cur r_next s))
   = dio_totrecv (dag s) + dio_counter (dag s) /\
   dio_totsend (dag (handle_dio_timer link_local r_cur r_next s))
   = dio_totsend (dag s)) /\
  (force <> 0 \/ dio_intmin (dag s) < dio_intcurrent (dag s) ->
   dio_totint (dag (rpl_reset_dio_timer force r_cur r_next s))
   = dio_totint (dag s) + 1 /\
   dio_totrecv (dag (rpl_reset_dio_timer force r_cur r_next s))
   = dio_totrecv (dag s) /\
   rpl_stats_resets (rpl_reset_dio_timer force r_cur r_next s)
   = rpl_stats_resets s + 1).
Proof.
  intros Hstats Hready.
  assert (N : forall a b x,
             dio_totint (dag (new_dio_interval a b x)) = dio_totint (dag x) + 1 /\
             dio_totrecv (dag (new_dio_interval a b x))
             = dio_totrecv (dag x) + dio_counter (dag x) /\
             dio_totsend (dag (new_dio_interval a b x)) = dio_totsend (dag x) /\
             rpl_stats_resets (new_dio_interval a b x) = rpl_stats_resets x).
  { intros a b x. unfold new_dio_interval. rewrite Hstats.
    destruct (next_time x =? 0);
      [destruct (new_interval (shift1UL (dio_intcurrent (dag x))) a) |];
      cbn -[new_interval shift1UL];
      destruct (new_interval (shift1UL (dio_intcurrent (dag x) + 1)) b);
      repeat split; reflexivity. }
  split; [| split].
  - intros Hsend.
    rewrite handle_dio_timer_ready by exact Hready.
    unfold dio_timer_phase. rewrite Hstats.
    destruct (Z.eqb_spec (dio_send_ok s) 0); cbn;
      (destruct (Z.eqb_spec (dio_send (dag s)) 0); [contradiction |]); cbn;
      destruct (dio_counter (dag s) <? dio_redundancy (dag s)); cbn;
      repeat split; try reflexivity; lia.
  - intros Hsend.
    rewrite handle_dio_timer_ready by exact Hready.
    unfold dio_timer_phase.
    destruct (Z.eqb_spec (dio_send_ok s) 0);
      cbn [dag set_dio_send_ok]; rewrite Hsend; cbn [Z.eqb negb];
      destruct (dio_intcurrent (dag s) <? dio_intmin (dag s) + dio_intdoubl (dag s));
      match goal with
      | |- context [new_dio_interval _ _ ?x] =>
          destruct (N r_cur r_next x) as (N1 & N2 & N3 & _);
          rewrite N1, N2, N3
      end; repeat split; reflexivity.
  - intros H. rewrite (rpl_reset_dio_timer_effect force r_cur r_next s H).
    match goal with
    | |- context [count_reset ?x] =>
        destruct (count_reset_keeps x) as (K1 & _ & K3)
    end.
    rewrite K1, K3, Hstats.
    match goal with
    | |- context [new_dio_interval _ _ ?x] =>
        destruct (N r_cur r_next x) as (N1 & N2 & _ & N4);
        rewrite N1, N2, N4
    end.
    cbn. repeat split; lia.
Qed.

(** X6.  An unforced reset that follows any reset finds the exponent at
    (or below) the minimum and takes no effect: the interval started by the
    first reset, the look-ahead and the log of calls stay as they are, only
    the statistics counter of resets moves. *)
Theorem reset_twice force r_cur r_next r_cur' r_next' s :
  rpl_reset_dio_timer 0 r_cur' r_next' (rpl_reset_dio_timer force r_cur r_next s)
  = count_reset (rpl_reset_dio_timer force r_cur r_next s).
Proof.
  assert (K : forall x,
             dio_intcurrent (dag x) <= dio_intmin (dag x) ->
             rpl_reset_dio_timer 0 r_cur' r_next' x = count_reset x).
  { intros x H. unfold rpl_reset_dio_timer, count_reset.
    apply Z.ltb_ge in H. rewrite H. reflexivity. }
  apply K.
  destruct (Z.eq_dec force 0) as [F | F].
  - destruct (Z.lt_ge_cases (dio_intmin (dag s)) (dio_intcurrent (dag s)))
      as [L | L].
    + rewrite (rpl_reset_dio_timer_effect force r_cur r_next s (or_intror L)).
      rewrite (proj1 (count_reset_keeps _)).
      match goal with
      | |- context [new_dio_interval _ _ ?x] =>
          destruct (new_dio_interval_dag r_cur r_next x) as (Hc & Hm & _)
      end.
      rewrite Hc, Hm. cbn. lia.
    + assert (E : rpl_reset_dio_timer force r_cur r_next s = count_reset s).
      { unfold rpl_reset_dio_timer, count_reset. rewrite F.
        apply Z.ltb_ge in L. rewrite L. reflexivity. }
      rewrite E, (proj1 (count_reset_keeps s)). exact L.
  - rewrite (rpl_reset_dio_timer_effect force r_cur r_next s (or_introl F)).
    rewrite (proj1 (count_reset_keeps _)).
    match goal with
    | |- context [new_dio_interval _ _ ?x] =>
        destruct (new_dio_interval_dag r_cur r_next x) as (Hc & Hm & _)
    end.
    rewrite Hc, Hm. cbn. lia.
Qed.

(** X14.  A reset that takes effect starts an interval of the minimal
    exponent drawn afresh: with [I] the ticks of [2^dio_intmin] ms, the timer
    is set for a first part in [I/2, I], the second part is what is left of
    [I], so the interval lasts [I] whatever the random value, and the DIO can
    only go out in the second half of it.  The look-ahead stored before the
    reset has no part in it. *)
Theorem reset_interval_length force r_cur r_next s :
  0 < RANDOM_RAND_MAX -> 0 <= r_cur <= RANDOM_RAND_MAX ->
  force <> 0 \/ dio_intmin (dag s) < dio_intcurrent (dag s) ->
  let s' := rpl_reset_dio_timer force r_cur r_next s in
  let I := scaled_ticks (shift1UL (dio_intmin (dag s))) in
  I / 2 <= interval (dio_timer (dag s')) <= I /\
  0 <= dio_next_delay (dag s') <= I - I / 2 /\
  interval_length s' = I /\
  dio_send (dag s') = 1 /\
  dio_counter (dag s') = 0.
Proof.
  intros HR Hr H s' I.
  set (s0 := set_next_time 0
               (on_dag (set_dio_intcurrent
                          (dio_intmin (dag (on_dag (set_dio_counter 0) s))))
                  (on_dag (set_dio_counter 0) s))).
  assert (E : dag s' = dag (new_dio_interval r_cur r_next s0)).
  { subst s'. rewrite (rpl_reset_dio_timer_effect force r_cur r_next s H).
    apply count_reset_keeps. }
  destruct (new_dio_interval_dag r_cur r_next s0) as (_ & _ & _ & Hs & Hk & _).
  destruct (new_dio_interval_fresh r_cur r_next s0 eq_refl) as (Ht & Hd & _).
  change (dio_intcurrent (dag s0)) with (dio_intmin (dag s)) in Ht, Hd.
  rewrite (new_interval_eq (shift1UL (dio_intmin (dag s))) r_cur HR Hr)
    in Ht, Hd.
  cbn [fst snd] in Ht, Hd. fold I in Ht, Hd.
  pose proof (scaled_ticks_range (shift1UL (dio_intmin (dag s)))) as HI.
  fold I in HI.
  destruct (half_bounds I ltac:(lia)) as [Hh0 Hh].
  pose proof (random_share_le (I / 2) r_cur HR Hh0 Hr) as Hq.
  unfold interval_length. rewrite E, Ht, Hd, Hs, Hk. cbn [interval ctimer_set].
  repeat split; try reflexivity; lia.
Qed.

(** ** The address check, the DAO timer and the DIS cadence *)

Lemma dio_timer_phase_dio_send_ok r_cur r_next s :
  dio_send_ok (dio_timer_phase r_cur r_next s) = dio_send_ok s.
Proof.
  unfold dio_timer_phase.
  destruct (negb _).
  - destruct (_ <? _); destruct RPL_CONF_STATS; reflexivity.
  - match goal with
    | |- context [new_dio_interval _ _ ?x] =>
        destruct (new_dio_interval_dag r_cur r_next x)
          as (_ & _ & _ & _ & _ & H)
    end.
    rewrite H. destruct (_ <? _); reflexivity.
Qed.

Lemma rpl_schedule_next_dio_reception_dio_send_ok
      p now delay next_time next_delay s :
  dio_send_ok (rpl_schedule_next_dio_reception p now delay next_time
                                               next_delay s)
  = dio_send_ok s.
Proof.
  unfold rpl_schedule_next_dio_reception.
  destruct (is_preferred p s); reflexivity.
Qed.

Lemma rpl_dio_received_dio_send_ok p now delay next_time next_delay s :
  dio_send_ok (rpl_dio_received p now delay next_time next_delay s)
  = dio_send_ok s.
Proof.
  unfold rpl_dio_received.
  destruct (is_preferred p s); [| reflexivity].
  destruct (first_dio_received (parent s) =? 0).
  - cbn [dio_send_ok set_dis_sended on_parent set_parent].
    apply rpl_schedule_next_dio_reception_dio_send_ok.
  - unfold timeliness.
    destruct (negb (dis_sended s =? 0));
      (destruct (_ <? _); [| destruct (_ =? _)]);
      rewrite ?rpl_schedule_next_dio_reception_dio_send_ok; reflexivity.
Qed.

(** Only [handle_dio_timer] writes [dio_send_ok], and only to set it. *)
Lemma run_dio_send_ok e s :
  dio_send_ok s <> 0 -> dio_send_ok (run e s) = dio_send_ok s.
Proof.
  intros H. destruct e; cbn [run].
  - apply rpl_dio_received_dio_send_ok.
  - apply rpl_schedule_next_dio_reception_dio_send_ok.
  - unfold handle_next_dio. destruct (is_preferred p s); reflexivity.
  - unfold send_dis. destruct (_ =? _); reflexivity.
  - unfold handle_periodic_timer.
    destruct RPL_DIS_SEND; [destruct (_ && _) |]; reflexivity.
  - reflexivity.
  - unfold handle_dio_timer.
    destruct (Z.eqb_spec (dio_send_ok s) 0); [contradiction |].
    apply dio_timer_phase_dio_send_ok.
  - unfold rpl_reset_dio_timer. fold (count_reset s).
    destruct (_ || _).
    + match goal with
      | |- context [new_dio_interval _ _ ?x] =>
          fold (count_reset (new_dio_interval r_cur r_next x));
          rewrite (proj1 (proj2 (count_reset_keeps
                                   (new_dio_interval r_cur r_next x))));
          destruct (new_dio_interval_dag r_cur r_next x)
            as (_ & _ & _ & _ & _ & E)
      end.
      exact E.
    + apply count_reset_keeps.
  - unfold handle_dao_timer.
    destruct (_ && _); [| destruct (preferred_parent (dag s))]; reflexivity.
  - unfold rpl_schedule_dao. destruct (negb _); reflexivity.
  - reflexivity.
Qed.

(** X7.  Once [handle_dio_timer] has seen the link-local address,
    [dio_send_ok] keeps its value through every later call of the file and
    through whatever the rest of the stack does to the DAG and the parent.
    From then on the address is not asked for again: an expiry of the DIO
    timer goes straight to its phase, and an expiry of the DAO timer stops the
    timer instead of postponing, also when the address has gone. *)
Theorem dio_send_ok_latched es s :
  dio_send_ok s <> 0 ->
  dio_send_ok (runs es s) = dio_send_ok s /\
  (forall r_cur r_next,
      handle_dio_timer false r_cur r_next (runs es s)
      = dio_timer_phase r_cur r_next (runs es s)) /\
  pending (dao_timer (dag (handle_dao_timer false (runs es s)))) = false.
Proof.
  intros H.
  assert (L : dio_send_ok (runs es s) = dio_send_ok s).
  { revert s H. induction es as [| e es IH]; intros s H; cbn [runs].
    - reflexivity.
    - rewrite IH by (rewrite run_dio_send_ok; assumption).
      apply run_dio_send_ok. exact H. }
  assert (N : (dio_send_ok (runs es s) =? 0) = false).
  { rewrite L. apply Z.eqb_neq. exact H. }
  split; [exact L |].
  split.
  - intros r_cur r_next. unfold handle_dio_timer. rewrite N. reflexivity.
  - unfold handle_dao_timer. rewrite N. cbn [andb].
    destruct (preferred_parent (dag (runs es s))); reflexivity.
Qed.

(** While the node has never seen its address, an expiry of the DAO timer
    sets the timer again for one second and does nothing else. *)
Lemma dao_postponements_keep n s :
  dio_send_ok s = 0 ->
  pending (dao_timer (dag s)) = true ->
  dio_send_ok (dao_postponements n s) = 0 /\
  calls (dao_postponements n s) = calls s /\
  preferred_parent (dag (dao_postponements n s)) = preferred_parent (dag s) /\
  default_lifetime (dag (dao_postponements n s)) = default_lifetime (dag s) /\
  pending (dao_timer (dag (dao_postponements n s))) = true /\
  (n <> O ->
   dao_timer (dag (dao_postponements n s))
   = ctimer_set CLOCK_SECOND cb_handle_dao_timer).
Proof.
  revert s. induction n as [| n IH]; intros s Hok Hp; cbn [dao_postponements].
  - repeat split; try assumption; try reflexivity. intros H. contradiction.
  - set (s1 := dao_timer_expires false s).
    assert (E1 : s1 = on_dag (set_dao_timer
                                (ctimer_set CLOCK_SECOND cb_handle_dao_timer))
                        (on_dag (set_dao_timer
                                   (ctimer_expire (dao_timer (dag s)))) s)).
    { subst s1. unfold dao_timer_expires, handle_dao_timer.
      rewrite Hp. cbn [dio_send_ok on_dag set_dag]. rewrite Hok. reflexivity. }
    destruct (IH s1) as (I1 & I2 & I3 & I4 & I5 & I6);
      [rewrite E1; exact Hok | rewrite E1; reflexivity |].
    split; [exact I1 |].
    split; [rewrite I2, E1; reflexivity |].
    split; [rewrite I3, E1; reflexivity |].
    split; [rewrite I4, E1; reflexivity |].
    split; [exact I5 |].
    intros _. destruct n as [| n].
    + cbn [dao_postponements]. rewrite E1. reflexivity.
    + apply I6. discriminate.
Qed.

(** X8.  A DAO requested before the node has its address is kept, not
    lost: every expiry without the address sets the timer again for one
    second and sends nothing, and further requests change nothing meanwhile.
    The first expiry with the address sends one DAO to the preferred parent
    with the default lifetime (none when there is no preferred parent) and
    stops the timer.  Unlike the DIO handler, it does not set
    [dio_send_ok]. *)
Theorem dao_postponed_then_sent n r s :
  dio_send_ok s = 0 ->
  etimer_expired (dao_timer (dag s)) = true ->
  let s1 := dao_postponements n (rpl_schedule_dao r s) in
  let s2 := dao_timer_expires true s1 in
  calls s1 = calls s /\
  pending (dao_timer (dag s1)) = true /\
  (forall r', rpl_schedule_dao r' s1 = s1) /\
  calls s2
  = calls s ++ match preferred_parent (dag s) with
               | Some q => [dao_output q (default_lifetime (dag s))]
               | None => []
               end /\
  pending (dao_timer (dag s2)) = false /\
  dio_send_ok s2 = 0.
Proof.
  intros Hok Hexp s1 s2.
  set (s0 := rpl_schedule_dao r s).
  assert (E0 : s0 = on_dag (set_dao_timer
                              (ctimer_set
                                 (DEFAULT_DAO_LATENCY / 2
                                  + r mod DEFAULT_DAO_LATENCY)
                                 cb_handle_dao_timer)) s).
  { subst s0. unfold rpl_schedule_dao. rewrite Hexp. reflexivity. }
  destruct (dao_postponements_keep n s0) as (I1 & I2 & I3 & I4 & I5 & _);
    [rewrite E0; exact Hok | rewrite E0; reflexivity |].
  change (dao_postponements n s0) with s1 in I1, I2, I3, I4, I5.
  assert (C0 : calls s0 = calls s) by (rewrite E0; reflexivity).
  assert (P0 : preferred_parent (dag s0) = preferred_parent (dag s))
    by (rewrite E0; reflexivity).
  assert (L0 : default_lifetime (dag s0) = default_lifetime (dag s))
    by (rewrite E0; reflexivity).
  split; [rewrite I2; exact C0 |].
  split; [exact I5 |].
  split.
  { intros r'. unfold rpl_schedule_dao, etimer_expired. rewrite I5.
    reflexivity. }
  subst s2. unfold dao_timer_expires, handle_dao_timer.
  rewrite I5. cbn [dio_send_ok on_dag set_dag dag negb andb].
  rewrite andb_false_r.
  cbn [preferred_parent default_lifetime set_dao_timer].
  rewrite I3, I4, P0, L0.
  destruct (preferred_parent (dag s)); cbn; rewrite I2, C0, I1;
    repeat split; try reflexivity.
  symmetry. apply app_nil_r.
Qed.

(** While the counter stays below [RPL_DIS_INTERVAL], expiries of the
    periodic timer with no DAG only count. *)
Lemma heartbeat_quiet k s :
  RPL_DIS_SEND = true ->
  0 <= next_dis s ->
  next_dis s + Z.of_nat k < RPL_DIS_INTERVAL ->
  RPL_DIS_INTERVAL <= 65536 ->
  next_dis (heartbeat (repeat true k) s) = next_dis s + Z.of_nat k /\
  calls (heartbeat (repeat true k) s) = calls s ++ quiet_beats k.
Proof.
  intros Hdis. revert s.
  induction k as [| k IH]; intros s H0 Hlt HI; cbn [repeat heartbeat quiet_beats].
  - split; [lia | symmetry; apply app_nil_r].
  - set (s1 := handle_periodic_timer true s).
    assert (E : next_dis s1 = next_dis s + 1 /\
                calls s1 = calls s ++ [rpl_purge_routes; rpl_recalculate_ranks]).
    { subst s1. unfold handle_periodic_timer. rewrite Hdis.
      cbn [next_dis set_next_dis emit andb].
      rewrite (wrap16_small (next_dis s + 1)) by lia.
      assert (C : (RPL_DIS_INTERVAL <=? next_dis s + 1) = false)
        by (apply Z.leb_gt; lia).
      rewrite C. cbn. rewrite <- app_assoc. split; reflexivity. }
    destruct E as [E1 E2].
    destruct (IH s1) as [I1 I2]; try lia.
    rewrite I1, I2, E1, E2, <- app_assoc.
    split; [lia | reflexivity].
Qed.

(** The expiry at which the counter reaches [RPL_DIS_INTERVAL] with no DAG
    sends the DIS and starts the count again. *)
Lemma heartbeat_until_dis k s :
  RPL_DIS_SEND = true ->
  0 <= next_dis s ->
  next_dis s + Z.of_nat k + 1 = RPL_DIS_INTERVAL ->
  RPL_DIS_INTERVAL < 65536 ->
  next_dis (heartbeat (repeat true (S k)) s) = 0 /\
  calls (heartbeat (repeat true (S k)) s)
  = calls s ++ quiet_beats k
            ++ [rpl_purge_routes; rpl_recalculate_ranks; dis_output None].
Proof.
  intros Hdis H0 Hk HI.
  replace (S k) with (k + 1)%nat by lia.
  rewrite repeat_app.
  assert (A : forall l1 l2 x,
             heartbeat (l1 ++ l2) x = heartbeat l2 (heartbeat l1 x)).
  { induction l1 as [| b l1 IH]; intros l2 x; cbn; [reflexivity | apply IH]. }
  rewrite A.
  destruct (heartbeat_quiet k s Hdis H0) as [Q1 Q2]; try lia.
  cbn [repeat heartbeat].
  unfold handle_periodic_timer. rewrite Hdis.
  cbn [next_dis set_next_dis emit andb calls set_periodic_timer].
  rewrite Q1.
  rewrite (wrap16_small (next_dis s + Z.of_nat k + 1)) by lia.
  assert (C : (RPL_DIS_INTERVAL <=? next_dis s + Z.of_nat k + 1) = true)
    by (apply Z.leb_le; lia).
  rewrite C. cbn.
  split; [reflexivity |].
  rewrite Q2, <- !app_assoc. reflexivity.
Qed.

(** X9.  With the DIS code compiled in, [1 <= RPL_DIS_START_DELAY <=
    RPL_DIS_INTERVAL < 65536] and no DAG found at any expiry: after
    [rpl_reset_periodic_timer] the first [RPL_DIS_START_DELAY - 1] expiries
    send nothing, the expiry number [RPL_DIS_START_DELAY] sends the first DIS
    and zeroes the counter, and the next DIS follows exactly
    [RPL_DIS_INTERVAL] expiries later. *)
Theorem dis_cadence s :
  RPL_DIS_SEND = true ->
  1 <= RPL_DIS_START_DELAY <= RPL_DIS_INTERVAL ->
  RPL_DIS_INTERVAL < 65536 ->
  let quiet := Z.to_nat (RPL_DIS_START_DELAY - 1) in
  let period := Z.to_nat (RPL_DIS_INTERVAL - 1) in
  let s0 := rpl_reset_periodic_timer s in
  let s1 := heartbeat (repeat true (S quiet)) s0 in
  let s2 := heartbeat (repeat true (S period)) s1 in
  calls (heartbeat (repeat true quiet) s0) = calls s ++ quiet_beats quiet /\
  calls s1
  = calls s ++ quiet_beats quiet
            ++ [rpl_purge_routes; rpl_recalculate_ranks; dis_output None] /\
  next_dis s1 = 0 /\
  calls (heartbeat (repeat true period) s1) = calls s1 ++ quiet_beats period /\
  calls s2
  = calls s1 ++ quiet_beats period
             ++ [rpl_purge_routes; rpl_recalculate_ranks; dis_output None] /\
  next_dis s2 = 0.
Proof.
  intros Hdis HD HI quiet period s0 s1 s2.
  assert (N0 : next_dis s0 = RPL_DIS_INTERVAL - RPL_DIS_START_DELAY).
  { subst s0. unfold rpl_reset_periodic_timer. cbn.
    apply wrap16_small. lia. }
  assert (C0 : calls s0 = calls s) by reflexivity.
  destruct (heartbeat_quiet quiet s0 Hdis) as [_ Q]; try (subst quiet; lia).
  destruct (heartbeat_until_dis quiet s0 Hdis) as [U1 U2];
    try (subst quiet; lia).
  fold s1 in U1, U2.
  destruct (heartbeat_quiet period s1 Hdis) as [_ Q']; try (subst period; lia).
  destruct (heartbeat_until_dis period s1 Hdis) as [V1 V2];
    try (subst period; lia).
  fold s2 in V1, V2.
  rewrite C0 in Q, U2.
  repeat split; assumption.
Qed.

(** While a DAG is found, expiries of the periodic timer send no DIS and
    the counter runs on. *)
Lemma heartbeat_with_dag k s :
  RPL_DIS_SEND = true ->
  0 <= next_dis s ->
  next_dis s + Z.of_nat k < 65536 ->
  next_dis (heartbeat (repeat false k) s) = next_dis s + Z.of_nat k /\
  calls (heartbeat (repeat false k) s) = calls s ++ quiet_beats k.
Proof.
  intros Hdis. revert s.
  induction k as [| k IH]; intros s H0 Hlt; cbn [repeat heartbeat quiet_beats].
  - split; [lia | symmetry; apply app_nil_r].
  - set (s1 := handle_periodic_timer false s).
    assert (E : next_dis s1 = next_dis s + 1 /\
                calls s1 = calls s ++ [rpl_purge_routes; rpl_recalculate_ranks]).
    { subst s1. unfold handle_periodic_timer. rewrite Hdis.
      cbn [next_dis set_next_dis emit andb].
      rewrite (wrap16_small (next_dis s + 1)) by lia.
      cbn. rewrite <- app_assoc. split; reflexivity. }
    destruct E as [E1 E2].
    destruct (IH s1) as [I1 I2]; try lia.
    rewrite I1, I2, E1, E2, <- app_assoc.
    split; [lia | reflexivity].
Qed.

(** X13.  The counter of the periodic timer is not held back while a DAG
    exists: it goes on counting the seconds and may pass [RPL_DIS_INTERVAL].
    If it has (and has not wrapped around 65536), the first expiry that finds
    no DAG sends a DIS at once and zeroes the counter, however short the time
    since the DAG was lost. *)
Theorem dis_after_dag_loss k s :
  RPL_DIS_SEND = true ->
  0 <= next_dis s ->
  RPL_DIS_INTERVAL <= next_dis s + Z.of_nat k + 1 < 65536 ->
  let s1 := heartbeat (repeat false k) s in
  let s2 := handle_periodic_timer true s1 in
  next_dis s1 = next_dis s + Z.of_nat k /\
  calls s1 = calls s ++ quiet_beats k /\
  calls s2
  = calls s1 ++ [rpl_purge_routes; rpl_recalculate_ranks; dis_output None] /\
  next_dis s2 = 0.
Proof.
  intros Hdis H0 Hk s1 s2.
  destruct (heartbeat_with_dag k s Hdis H0) as [W1 W2]; [lia |].
  fold s1 in W1, W2.
  split; [exact W1 |]. split; [exact W2 |].
  subst s2. unfold handle_periodic_timer. rewrite Hdis.
  cbn [next_dis set_next_dis emit andb calls set_periodic_timer].
  rewrite W1.
  rewrite (wrap16_small (next_dis s + Z.of_nat k + 1)) by lia.
  assert (C : (RPL_DIS_INTERVAL <=? next_dis s + Z.of_nat k + 1) = true)
    by (apply Z.leb_le; lia).
  rewrite C. cbn.
  split; [rewrite <- !app_assoc; reflexivity | reflexivity].
Qed.

(** ** The predictor: what is published, and the DIS loop *)

Lemma rpl_schedule_next_dio_reception_keeps
      p now delay next_time next_delay s :
  calls (rpl_schedule_next_dio_reception p now delay next_time next_delay s)
  = calls s /\
  latency_metric
    (parent (rpl_schedule_next_dio_reception p now delay next_time
                                             next_delay s))
  = latency_metric (parent s).
Proof.
  unfold rpl_schedule_next_dio_reception.
  destruct (is_preferred p s); split; reflexivity.
Qed.

(** The test on the arrival time publishes what it stores, and stores a
    lateness that is not 0. *)
Lemma timeliness_publishes p now delay next_time next_delay s :
  0 <= now < 4294967296 ->
  (calls (timeliness p now delay next_time next_delay s) = calls s /\
   latency_metric (parent (timeliness p now delay next_time next_delay s))
   = latency_metric (parent s)) \/
  (calls (timeliness p now delay next_time next_delay s)
   = calls s
     ++ [update_metric_container
           (latency_metric
              (parent (timeliness p now delay next_time next_delay s)))] /\
   latency_metric (parent (timeliness p now delay next_time next_delay s))
   = now - wrap32 (next_dio_start_interval (parent s)
                   + next_dio_time (parent s)) /\
   0 < latency_metric
         (parent (timeliness p now delay next_time next_delay s))
     <= now).
Proof.
  intros Hnow. unfold timeliness.
  pose proof (wrap32_range (next_dio_start_interval (parent s)
                            + next_dio_time (parent s))) as He.
  destruct (Z.ltb_spec
              (wrap32 (next_dio_start_interval (parent s)
                       + next_dio_time (parent s))) now) as [L | L].
  - right.
    match goal with
    | |- context [rpl_schedule_next_dio_reception _ _ _ _ _ ?x] =>
        destruct (rpl_schedule_next_dio_reception_keeps
                    p now delay next_time next_delay x) as [K1 K2]
    end.
    rewrite K1, K2. cbn.
    rewrite wrap32_small by lia.
    repeat split; try reflexivity; lia.
  - left. destruct (_ =? _).
    + apply rpl_schedule_next_dio_reception_keeps.
    + split; reflexivity.
Qed.

(** X10.  Whatever state it is called in, [rpl_dio_received] either logs
    nothing and leaves [latency_metric] alone, or logs exactly one
    [update_metric_container], carrying the value it has just stored in
    [latency_metric]; it does so only for the preferred parent after its
    first DIO, and the stored lateness is then at least one tick and at most
    [now]: a lateness of 0 is never published. *)
Theorem latency_published_is_stored p now delay next_time next_delay s :
  0 <= now < 4294967296 ->
  (calls (rpl_dio_received p now delay next_time next_delay s) = calls s /\
   latency_metric (parent (rpl_dio_received p now delay next_time next_delay s))
   = latency_metric (parent s)) \/
  (calls (rpl_dio_received p now delay next_time next_delay s)
   = calls s
     ++ [update_metric_container
           (latency_metric
              (parent (rpl_dio_received p now delay next_time next_delay s)))] /\
   0 < latency_metric
         (parent (rpl_dio_received p now delay next_time next_delay s))
     <= now /\
   is_preferred p s = true /\
   first_dio_received (parent s) <> 0).
Proof.
  intros Hnow. unfold rpl_dio_received.
  destruct (is_preferred p s) eqn:Hp; [| left; split; reflexivity].
  destruct (Z.eqb_spec (first_dio_received (parent s)) 0) as [F | F].
  - left. cbn [calls parent set_dis_sended on_parent set_parent
               latency_metric set_first_dio_received].
    apply rpl_schedule_next_dio_reception_keeps.
  - destruct (negb (dis_sended s =? 0)).
    + destruct (timeliness_publishes p now delay next_time
                  (wrap32 (next_delay + 400))
                  (residual_correction p now next_time
                     (wrap32 (next_delay + 400)) s) Hnow)
        as [[T1 T2] | (T1 & _ & T3)].
      * left. rewrite T1, T2. split; reflexivity.
      * right. rewrite T1. repeat split; try assumption; lia.
    + destruct (timeliness_publishes p now delay next_time
                  (wrap32 (next_delay + 400)) s Hnow)
        as [[T1 T2] | (T1 & _ & T3)].
      * left. split; assumption.
      * right. repeat split; try assumption; lia.
Qed.

(** What the calls of the predictor do for a parent that is not the
    preferred one and has no first DIO recorded. *)
Lemma run_not_preferred p e s :
  is_preferred p s = false ->
  first_dio_received (parent s) = 0 ->
  predictor_entry p e = true ->
  dag (run e s) = dag s /\
  parent (run e s) = parent s /\
  calls (run e s)
  = calls s ++ (if is_send_dis e then [dis_output (Some p)] else []) /\
  (is_send_dis e = true ->
   pending (dis_timer (run e s)) = true /\
   f (dis_timer (run e s)) = Some (cb_send_dis p)).
Proof.
  intros Hp Hf He.
  destruct e; cbn [predictor_entry] in He; try discriminate;
    apply Z.eqb_eq in He; subst p0; cbn [run is_send_dis].
  - unfold rpl_dio_received. rewrite Hp. rewrite app_nil_r.
    repeat split; try reflexivity; discriminate.
  - unfold rpl_schedule_next_dio_reception. rewrite Hp. rewrite app_nil_r.
    repeat split; try reflexivity; discriminate.
  - unfold handle_next_dio. rewrite Hp. rewrite app_nil_r.
    repeat split; try reflexivity; discriminate.
  - unfold send_dis. rewrite Hf. cbn. repeat split; reflexivity.
Qed.

(** X11.  [send_dis] does not ask whether its parent is still the preferred
    one, while [rpl_dio_received], [rpl_schedule_next_dio_reception] and
    [handle_next_dio] return at once for a parent that is not.  So for a
    parent that has stopped being the preferred one while
    [first_dio_received] was 0, no DIO ends the loop: through any sequence of
    calls of the predictor for that parent, its record and the DAG stay as they
    are, and every expiry of the DIS timer sends one more DIS to it. *)
Theorem orphaned_probe_loop p es s :
  is_preferred p s = false ->
  first_dio_received (parent s) = 0 ->
  forallb (predictor_entry p) es = true ->
  parent (runs es s) = parent s /\
  dag (runs es s) = dag s /\
  calls (runs es s)
  = calls s ++ map (fun _ => dis_output (Some p)) (filter is_send_dis es) /\
  (forall r,
      calls (send_dis p r (runs es s))
      = calls (runs es s) ++ [dis_output (Some p)]).
Proof.
  revert s. induction es as [| e es IH]; intros s Hp Hf Hes; cbn [runs].
  - cbn. rewrite app_nil_r. repeat split; try reflexivity.
    intros r. unfold send_dis. rewrite Hf. reflexivity.
  - cbn [forallb] in Hes. apply andb_prop in Hes. destruct Hes as [He Hes].
    destruct (run_not_preferred p e s Hp Hf He) as (R1 & R2 & R3 & _).
    assert (Hp1 : is_preferred p (run e s) = false).
    { unfold is_preferred in *. rewrite R1. exact Hp. }
    assert (Hf1 : first_dio_received (parent (run e s)) = 0)
      by (rewrite R2; exact Hf).
    destruct (IH (run e s) Hp1 Hf1 Hes) as (I1 & I2 & I3 & I4).
    split; [rewrite I1; exact R2 |].
    split; [rewrite I2; exact R1 |].
    split; [| exact I4].
    rewrite I3, R3. cbn [filter].
    destruct (is_send_dis e); cbn [map]; rewrite <- app_assoc; reflexivity.
Qed.


End RplTimers.

(** * Instances and counterexamples *)

(** *** C1 *)

(** C1: the first DIO [(0, 1000, 500)] arrives at 5000.  A DIO at 6600 is
    not on time for the code: it records and publishes a lateness of 600.  By
    7000 the latency timer, set for 1900 ticks, has expired (and the DIS timer
    once): the DIO is taken as a first one and records nothing, no 500. *)
Lemma prediction_example_counterexample :
  let s1 := rpl_dio_received 1 5000 0 1000 500 example_state in
  let on_1600 := dio_after_wait 65535 1 5000 6600 7 [9] 0 1000 500 s1 in
  let on_2000 := dio_after_wait 65535 1 5000 7000 7 [9] 0 1000 500 s1 in
  latency_metric (parent s1) = 0 /\
  latency_metric (parent on_1600) = 600 /\
  calls on_1600 = calls s1 ++ [update_metric_container 600] /\
  latency_metric (parent on_2000) = 0 /\
  latency_metric (parent on_2000) <> 500 /\
  calls on_2000 = calls s1 ++ [dis_output (Some 1)].
Proof.
  cbv zeta.
  repeat split; try (vm_compute; reflexivity).
  vm_compute. discriminate.
Qed.

Lemma prediction_example_witness :
  (is_preferred 1 example_state = true /\
   first_dio_received (parent example_state) = 0 /\
   0 <= 5000 /\ 5000 + 2000 < 4294967296) /\
  latency_timer (parent (rpl_dio_received 1 5000 0 1000 500 example_state))
  = ctimer_set 1900 (cb_handle_next_dio 1) /\
  latency_metric
    (parent (dio_after_wait 65535 1 5000 (5000 + 1600) 7 [9] 0 1000 500
               (rpl_dio_received 1 5000 0 1000 500 example_state)))
  = 600 /\
  calls (dio_after_wait 65535 1 5000 (5000 + 2000) 7 [9] 0 1000 500
           (rpl_dio_received 1 5000 0 1000 500 example_state))
  = calls example_state ++ map (fun _ => dis_output (Some 1)) [9].
Proof.
  split; [repeat split; try reflexivity; lia |].
  pose proof (prediction_example 65535 1 5000 example_state
                eq_refl eq_refl ltac:(lia) ltac:(lia)) as H.
  cbv zeta in H.
  destruct H as (_ & _ & Ht & _ & _ & _ & _ & H1600 & _ & H2000).
  split; [exact Ht |].
  split.
  - exact (proj1 (H1600 7 [9] 0 1000 500)).
  - exact (proj2 (H2000 7 [9] 0 1000 500)).
Defined.

(** *** C2 *)

(** C2: the first DIO at time 0 gives the window (0, 1000, 900); the wait
    ends and [handle_next_dio] starts the DIS loop, leaving [dis_sended] at 0;
    the DIO [(0, 2000, 700)] that arrives at 2500 sets the window to start at
    2500 and the timer to 3100 ticks, where the residual correction would
    have kept the start at 0 and set the timer to 120 + 1100 ticks. *)
Lemma probe_recovery_counterexample :
  let s1 := rpl_dio_received 1 0 0 1000 500 example_state in
  let s2 := handle_next_dio 65535 1 100 s1 in
  let s3 := rpl_dio_received 1 2500 0 2000 700 s2 in
  let corrected := residual_correction 1 2500 2000 1100 s2 in
  dis_sended s2 = 0 /\
  first_dio_received (parent s2) = 0 /\
  next_dio_start_interval (parent corrected) = 0 /\
  latency_timer (parent corrected) = ctimer_set 1220 (cb_handle_next_dio 1) /\
  next_dio_start_interval (parent s3) = 2500 /\
  latency_timer (parent s3) = ctimer_set 3100 (cb_handle_next_dio 1) /\
  parent s3 <> parent corrected.
Proof.
  cbv zeta.
  repeat split; try (vm_compute; reflexivity).
  vm_compute. discriminate.
Qed.

Lemma probe_recovery_witness :
  is_preferred 1 example_state = true /\
  parent (rpl_dio_received 1 2500 0 2000 700
            (handle_next_dio 65535 1 100 example_state))
  = mk_parent 1 2500 2000 1100 0 (ctimer_set 3100 (cb_handle_next_dio 1)).
Proof.
  split; [reflexivity |].
  pose proof (probe_recovery 65535 1 100 2500 0 2000 700 example_state
                eq_refl) as H.
  cbv zeta in H.
  destruct H as (_ & _ & _ & Hp & _).
  rewrite Hp. vm_compute. reflexivity.
Defined.

(** A later DIO met with [dis_sended = 1], a state no run of the file
    produces: the window and the timer are those of the DIO, not the
    corrected ones. *)
Lemma residual_correction_overwritten_witness :
  (is_preferred 1
     (set_dis_sended 1 (rpl_dio_received 1 0 0 1000 500 example_state))
   = true /\
   dis_sended
     (set_dis_sended 1 (rpl_dio_received 1 0 0 1000 500 example_state))
   <> 0) /\
  latency_timer
    (parent
       (rpl_dio_received 1 500 0 2000 700
          (set_dis_sended 1 (rpl_dio_received 1 0 0 1000 500 example_state))))
  = ctimer_set 3100 (cb_handle_next_dio 1).
Proof.
  assert (Hd : dis_sended
                 (set_dis_sended 1
                    (rpl_dio_received 1 0 0 1000 500 example_state)) <> 0)
    by (vm_compute; discriminate).
  split; [split; [reflexivity | exact Hd] |].
  assert (Hf : first_dio_received
                 (parent
                    (set_dis_sended 1
                       (rpl_dio_received 1 0 0 1000 500 example_state)))
               <> 0)
    by (vm_compute; discriminate).
  pose proof (residual_correction_overwritten 1 500 0 2000 700
                (set_dis_sended 1
                   (rpl_dio_received 1 0 0 1000 500 example_state))
                eq_refl Hf Hd) as H.
  cbv zeta in H.
  destruct H as (_ & _ & _ & Ht & _).
  rewrite Ht. vm_compute. reflexivity.
Defined.

(** *** C3 *)

Lemma dis_sended_always_zero_witness :
  reachable 128 65535 60 5 512 true false
    (run 128 65535 60 5 512 true false
       (call_rpl_dio_received 1 2500 0 2000 700)
       (run 128 65535 60 5 512 true false (call_handle_next_dio 1 100)
          (boot example_dag fresh_parent))) /\
  dis_sended
    (run 128 65535 60 5 512 true false
       (call_rpl_dio_received 1 2500 0 2000 700)
       (run 128 65535 60 5 512 true false (call_handle_next_dio 1 100)
          (boot example_dag fresh_parent))) = 0.
Proof.
  assert (R : reachable 128 65535 60 5 512 true false
                (run 128 65535 60 5 512 true false
                   (call_rpl_dio_received 1 2500 0 2000 700)
                   (run 128 65535 60 5 512 true false
                      (call_handle_next_dio 1 100)
                      (boot example_dag fresh_parent)))).
  { apply reachable_run. apply reachable_run. apply reachable_boot. }
  split; [exact R |].
  exact (proj1 (dis_sended_always_zero 128 65535 60 5 512 true false _ R)).
Defined.

(** *** C4 *)

Lemma trickle_exponent_bound_witness :
  (dio_send (dag second_part_state) = 0 /\
   dio_intmin (dag second_part_state)
   <= dio_intcurrent (dag second_part_state)
   <= dio_intmin (dag second_part_state)
      + dio_intdoubl (dag second_part_state)) /\
  dio_intcurrent
    (dag (handle_dio_timer 128 65535 false true 11 22 second_part_state)) = 4 /\
  dio_intcurrent
    (dag (intervals 128 65535 false
            [((1, 2), (3, 4)); ((5, 6), (7, 8)); ((9, 10), (11, 12))]
            example_state)) = 5.
Proof.
  assert (Hb : dio_intmin (dag second_part_state)
               <= dio_intcurrent (dag second_part_state)
               <= dio_intmin (dag second_part_state)
                  + dio_intdoubl (dag second_part_state))
    by (vm_compute; split; discriminate).
  split; [split; [reflexivity | exact Hb] |].
  destruct (trickle_exponent_bound 128 65535 false) as [Hstep Hrun].
  split.
  - pose proof (Hstep true 11 22 second_part_state eq_refl
                  (or_intror eq_refl) Hb) as H.
    cbv zeta in H.
    destruct H as (_ & _ & Hc & _).
    rewrite Hc. vm_compute. reflexivity.
  - assert (Hs : dio_send (dag example_state) <> 0)
      by (vm_compute; discriminate).
    exact (proj1 (proj2 (proj2
             (Hrun ((1, 2), (3, 4)) ((5, 6), (7, 8)) ((9, 10), (11, 12))
                   ((13, 14), (15, 16)) example_state
                   Hs eq_refl eq_refl eq_refl)))).
Defined.

(** *** C5 *)

Lemma reset_contract_witness :
  (dio_intcurrent (dag example_state) = dio_intmin (dag example_state)) /\
  rpl_reset_dio_timer 128 65535 false 0 11 22 example_state = example_state /\
  dio_intcurrent
    (dag (rpl_reset_dio_timer 128 65535 false 1 11 22
            (on_dag (set_dio_intcurrent 5) example_state))) = 3.
Proof.
  split; [reflexivity |].
  split.
  - destruct (reset_contract 128 65535 false 0 11 22 example_state)
      as [Hnoop _].
    destruct (Hnoop eq_refl eq_refl) as (He & _).
    rewrite He. reflexivity.
  - destruct (reset_contract 128 65535 false 1 11 22
                (on_dag (set_dio_intcurrent 5) example_state))
      as [_ Hreset].
    destruct Hreset as (_ & Hc & _).
    + left. discriminate.
    + rewrite Hc. reflexivity.
Defined.

(** *** C6 *)


(** *** C7 *)

Lemma send_phase_witness :
  (dio_send (dag example_state) <> 0) /\
  calls (handle_dio_timer 128 65535 false true 11 22 example_state)
  = [dio_output None] /\
  dio_timer (dag (handle_dio_timer 128 65535 false true 11 22 example_state))
  = ctimer_set 60 cb_handle_dio_timer.
Proof.
  assert (Hs : dio_send (dag example_state) <> 0) by (vm_compute; discriminate).
  split; [exact Hs |].
  pose proof (send_phase 128 65535 false true 11 22 example_state Hs
                (or_intror eq_refl)) as H.
  cbv zeta in H.
  destruct H as (Hc & _ & _ & Ht & _).
  split.
  - rewrite Hc; [reflexivity | vm_compute; reflexivity].
  - rewrite Ht. reflexivity.
Defined.

(** *** C8 *)

(** C8: with 128 ticks per second and [RANDOM_RAND_MAX = 65535], the
    interval of 2^20 ms gives 134217 ticks; for the largest random value the
    product 67108 * 65535 exceeds 32 bits, and the first part is 68678 ticks
    where the split over the integers gives 134216. *)
Lemma new_interval_split_counterexample :
  new_interval 128 65535 1048576 65535 = (68678, 65539) /\
  split_as_specified 128 65535 1048576 65535 = (134216, 1) /\
  new_interval 128 65535 1048576 65535
  <> split_as_specified 128 65535 1048576 65535.
Proof.
  split; [vm_compute; reflexivity |].
  split; [vm_compute; reflexivity |].
  vm_compute. discriminate.
Qed.

Lemma new_interval_split_witness :
  (0 < 65535 /\ 0 <= 30000 <= 65535) /\
  new_interval 128 65535 1024 30000 = (94, 37).
Proof.
  split; [lia |].
  pose proof (new_interval_split 128 65535 1024 30000
                ltac:(lia) ltac:(lia)) as H.
  cbv zeta in H.
  destruct H as (H1 & H2 & _).
  rewrite (surjective_pairing (new_interval 128 65535 1024 30000)).
  rewrite H2, H1. vm_compute. reflexivity.
Defined.

(** *** C9 *)

Lemma maintenance_heartbeat_witness :
  (0 <= 60 - 5 < 65536) /\
  next_dis (rpl_reset_periodic_timer 128 60 5 example_state) = 55 /\
  calls (heartbeat 60 true [true; true; true; true; true]
           (rpl_reset_periodic_timer 128 60 5 example_state))
  = [rpl_purge_routes; rpl_recalculate_ranks;
     rpl_purge_routes; rpl_recalculate_ranks;
     rpl_purge_routes; rpl_recalculate_ranks;
     rpl_purge_routes; rpl_recalculate_ranks;
     rpl_purge_routes; rpl_recalculate_ranks; dis_output None] /\
  periodic_timer (heartbeat 60 true [true; true; true; true; true]
                    (rpl_reset_periodic_timer 128 60 5 example_state))
  = ctimer_set 128 cb_handle_periodic_timer.
Proof.
  split; [lia |].
  pose proof (maintenance_heartbeat 128 60 5 true true example_state) as H.
  cbv zeta in H.
  destruct H as (_ & _ & _ & _ & _ & _ & Hn & _ & Hbeat).
  split; [apply Hn; lia |].
  split; [vm_compute; reflexivity |].
  apply Hbeat.
Defined.

(** *** C10 *)

Lemma early_changed_schedule_ignored_witness :
  rpl_dio_received 1 500 0 3000 500
    (rpl_dio_received 1 0 0 1000 500 example_state)
  = rpl_dio_received 1 0 0 1000 500 example_state.
Proof.
  apply (early_changed_schedule_ignored 1 500 0 3000 500
           (rpl_dio_received 1 0 0 1000 500 example_state)).
  - reflexivity.
  - vm_compute. discriminate.
  - reflexivity.
  - vm_compute. discriminate.
  - vm_compute. discriminate.
Defined.

(** ** Instances of the further properties *)

(** The example node at the cap of its exponent. *)
Lemma deferral_keeps_interval_witness :
  dio_send_ok example_state = 0 /\
  calls (dio_deferrals 128 65535 false [(1, 2); (3, 4)] example_state) = [] /\
  handle_dio_timer 128 65535 false true 11 22
    (dio_deferrals 128 65535 false [(1, 2); (3, 4)] example_state)
  = handle_dio_timer 128 65535 false true 11 22 example_state.
Proof.
  split; [reflexivity |].
  destruct (deferral_keeps_interval 128 65535 false [(1, 2); (3, 4)] 11 22
              example_state eq_refl) as (_ & Hc & _ & _ & _ & He).
  split; [exact Hc | exact He].
Defined.

(** At the cap (exponent 5, 4 ticks) the interval that follows lasts the 8
    ticks of the exponent 6, and the exponent stays 5. *)
Lemma next_interval_length_witness :
  (0 < 65535 /\ 0 <= 22 <= 65535) /\
  interval_length
    (one_interval 128 65535 false ((1, 2), (3, 4))
       (new_dio_interval 128 65535 false 11 22
          (on_dag (set_dio_intcurrent 5) example_state)))
  = 8 /\
  dio_intcurrent
    (dag (one_interval 128 65535 false ((1, 2), (3, 4))
            (new_dio_interval 128 65535 false 11 22
               (on_dag (set_dio_intcurrent 5) example_state))))
  = 5.
Proof.
  split; [lia |].
  assert (Hnt : next_time
                  (new_dio_interval 128 65535 false 11 22
                     (on_dag (set_dio_intcurrent 5) example_state)) <> 0)
    by (vm_compute; discriminate).
  pose proof (next_interval_length 128 65535 false 11 22 ((1, 2), (3, 4))
                (on_dag (set_dio_intcurrent 5) example_state)
                ltac:(lia) ltac:(lia) Hnt) as H.
  cbv zeta in H.
  destruct H as (_ & _ & _ & Hl & Hc).
  split.
  - rewrite Hl. vm_compute. reflexivity.
  - rewrite Hc. vm_compute. reflexivity.
Defined.

Lemma statistics_accounting_witness :
  (dio_send_ok second_part_state <> 0) /\
  dio_totrecv
    (dag (handle_dio_timer 128 65535 true false 11 22
            (on_dag (set_dio_counter 3) second_part_state)))
  = 3 /\
  dio_totrecv
    (dag (rpl_reset_dio_timer 128 65535 true 1 11 22
            (on_dag (set_dio_counter 3) second_part_state)))
  = 0.
Proof.
  assert (Hok : dio_send_ok (on_dag (set_dio_counter 3) second_part_state)
                <> 0)
    by (vm_compute; discriminate).
  split; [exact Hok |].
  destruct (statistics_accounting 128 65535 true false 1 11 22
              (on_dag (set_dio_counter 3) second_part_state)
              eq_refl (or_introl Hok)) as (_ & Hend & Hreset).
  split.
  - destruct (Hend eq_refl) as (_ & Hr & _). rewrite Hr. reflexivity.
  - destruct Hreset as (_ & Hr & _); [left; discriminate |].
    rewrite Hr. reflexivity.
Defined.

Lemma dio_send_ok_latched_witness :
  dio_send_ok second_part_state <> 0 /\
  dio_send_ok
    (runs 128 65535 60 5 512 true false
       [call_handle_dio_timer false 1 2; call_handle_dao_timer false;
        rest_of_stack example_dag fresh_parent;
        call_rpl_reset_dio_timer 1 3 4]
       second_part_state)
  = 1.
Proof.
  assert (Hok : dio_send_ok second_part_state <> 0)
    by (vm_compute; discriminate).
  split; [exact Hok |].
  destruct (dio_send_ok_latched 128 65535 60 5 512 true false
              [call_handle_dio_timer false 1 2; call_handle_dao_timer false;
               rest_of_stack example_dag fresh_parent;
               call_rpl_reset_dio_timer 1 3 4]
              second_part_state Hok) as (H & _).
  rewrite H. reflexivity.
Defined.

Lemma dao_postponed_then_sent_witness :
  (dio_send_ok example_state = 0 /\
   etimer_expired (dao_timer (dag example_state)) = true) /\
  calls (dao_postponements 128 3 (rpl_schedule_dao 512 1000 example_state))
  = [] /\
  calls (dao_timer_expires 128 true
           (dao_postponements 128 3
              (rpl_schedule_dao 512 1000 example_state)))
  = [dao_output 1 255].
Proof.
  split; [split; reflexivity |].
  pose proof (dao_postponed_then_sent 128 512 3 1000 example_state
                eq_refl eq_refl) as H.
  cbv zeta in H.
  destruct H as (H1 & _ & _ & H2 & _).
  split; [exact H1 | exact H2].
Defined.

(** With a DIS every 60 s and a start delay of 5 s: nothing for four
    seconds, the first DIS at the fifth, the counter back at 0. *)
Lemma dis_cadence_witness :
  (1 <= 5 <= 60 /\ 60 < 65536) /\
  calls (heartbeat 60 true (repeat true 4)
           (rpl_reset_periodic_timer 128 60 5 example_state))
  = quiet_beats 4 /\
  next_dis (heartbeat 60 true (repeat true 5)
              (rpl_reset_periodic_timer 128 60 5 example_state))
  = 0.
Proof.
  split; [lia |].
  pose proof (dis_cadence 128 60 5 true example_state eq_refl
                ltac:(lia) ltac:(lia)) as H.
  cbv zeta in H.
  destruct H as (H1 & _ & H3 & _).
  split; [exact H1 | exact H3].
Defined.

Lemma latency_published_is_stored_witness :
  (0 <= 1600 < 4294967296) /\
  calls (rpl_dio_received 1 1600 0 1000 500
           (rpl_dio_received 1 0 0 1000 500 example_state))
  = [update_metric_container 600].
Proof.
  split; [lia |].
  destruct (latency_published_is_stored 1 1600 0 1000 500
              (rpl_dio_received 1 0 0 1000 500 example_state)
              ltac:(lia)) as [[H _] | (H & _)].
  - vm_compute in H. discriminate H.
  - rewrite H. vm_compute. reflexivity.
Defined.

(** The parent at address 2 is not the preferred one: DIOs from it change
    nothing, and each of the two expiries of the DIS timer sends a DIS. *)
Lemma orphaned_probe_loop_witness :
  (is_preferred 2 example_state = false /\
   first_dio_received (parent example_state) = 0) /\
  calls (runs 128 65535 60 5 512 true false
           [call_send_dis 2 7; call_rpl_dio_received 2 100 0 1000 500;
            call_send_dis 2 9]
           example_state)
  = [dis_output (Some 2); dis_output (Some 2)].
Proof.
  split; [split; reflexivity |].
  destruct (orphaned_probe_loop 128 65535 60 5 512 true false 2
              [call_send_dis 2 7; call_rpl_dio_received 2 100 0 1000 500;
               call_send_dis 2 9]
              example_state eq_refl eq_refl eq_refl) as (_ & _ & H & _).
  exact H.
Defined.


(** A DAG found for 100 s, then lost: the next expiry sends the DIS. *)
Lemma dis_after_dag_loss_witness :
  (0 <= next_dis example_state /\
   60 <= next_dis example_state + Z.of_nat 100 + 1 < 65536) /\
  calls (handle_periodic_timer 60 true true
           (heartbeat 60 true (repeat false 100) example_state))
  = quiet_beats 100
    ++ [rpl_purge_routes; rpl_recalculate_ranks; dis_output None].
Proof.
  assert (Hk : 60 <= next_dis example_state + Z.of_nat 100 + 1 < 65536)
    by (vm_compute; split; [discriminate | reflexivity]).
  split; [split; [vm_compute; discriminate | exact Hk] |].
  pose proof (dis_after_dag_loss 60 true 100 example_state eq_refl
                ltac:(vm_compute; discriminate) Hk) as H.
  cbv zeta in H.
  destruct H as (_ & H2 & H3 & _).
  rewrite H3, H2. reflexivity.
Defined.

(** A forced reset from the exponent 5: the interval of the exponent 3
    lasts one tick at 128 ticks per second. *)
Lemma reset_interval_length_witness :
  (0 < 65535 /\ 0 <= 11 <= 65535) /\
  interval_length
    (rpl_reset_dio_timer 128 65535 false 1 11 22
       (on_dag (set_dio_intcurrent 5) example_state))
  = 1.
Proof.
  split; [lia |].
  assert (Hf : 1 <> 0
               \/ dio_intmin (dag (on_dag (set_dio_intcurrent 5) example_state))
                  < dio_intcurrent
                      (dag (on_dag (set_dio_intcurrent 5) example_state)))
    by (left; discriminate).
  pose proof (reset_interval_length 128 65535 false 1 11 22
                (on_dag (set_dio_intcurrent 5) example_state)
                ltac:(lia) ltac:(lia) Hf) as H.
  cbv zeta in H.
  destruct H as (_ & _ & Hl & _).
  rewrite Hl. vm_compute. reflexivity.
Defined.
